(** * ragas: token accounting, LLM gateway and metric scoring

    A shallow embedding of the parts of the [ragas] sources that the
    specification makes statements about:

    - [ragas/llms/cost.py]            (module [Cost])
    - [ragas/llms/base.py]            (module [Llm])
    - [ragas/metrics/_faithfulness.py]    (module [Faithfulness])
    - [ragas/metrics/_context_recall.py]  (module [ContextRecall])
    - [ragas/langchain/evalchain.py]  (module [EvalChain])

    Python integers are [Z]; dictionaries are stdpp's [gmap]; a function
    that can raise returns a [result]; a method that touches an object
    outside itself (the provider, the logger, the metric) threads that
    object's state explicitly. *)

From Stdlib Require Import ZArith QArith Qminmax Lia Lqa Ascii.
From stdpp Require Import gmap strings list pretty.

#[local] Set Warnings "-register-all".
#[local] Open Scope Z_scope.

(** ** Python exceptions and results *)

(** The exception classes that the modelled code raises or lets through.
    [RetryError] is tenacity's wrapper around the last failed attempt;
    [ProviderError] stands for whatever the language-model provider
    raises (its payload only tells two failures apart). *)
Inductive exn : Type :=
| ValueError (msg : string)
| ValidationError (msg : string)
| KeyError (key : string)
| IndexError
| AttributeError (attr : string)
| TypeError (msg : string)
| RetryError (last_attempt : exn)
| ProviderError (code : nat).

Inductive result (A : Type) : Type :=
| Ok (a : A)
| Raise (e : exn).
Arguments Ok {A} a.
Arguments Raise {A} e.

Definition bind {A B : Type} (r : result A) (k : A -> result B) : result B :=
  match r with
  | Ok a => k a
  | Raise e => Raise e
  end.

Declare Scope py_scope.
Delimit Scope py_scope with py.
Notation "'let?' x := r 'in' k" := (bind r (fun x => k))
  (at level 10, x name, r at level 100, k at level 200) : py_scope.
#[local] Open Scope py_scope.

Definition is_ok {A : Type} (r : result A) : bool :=
  match r with Ok _ => true | Raise _ => false end.

(** Python values as [json.loads] and the provider metadata produce them.
    A dict is a finite map, so two dicts with the same items are equal. *)
Inductive pyval : Type :=
| PNone
| PBool (b : bool)
| PInt (z : Z)
| PStr (s : string)
| PList (l : list pyval)
| PDict (d : gmap string pyval).

(** [d == {}] *)
Definition dict_is_empty {V : Type} (d : gmap string V) : bool :=
  bool_decide (size d = 0%nat).

(** The scores the metrics return are Python floats: either [np.nan] or
    the quotient of two integers.  [Ratio a b] is the float that Python's
    true division [a / b] returns for integers [a] and [b > 0], that is
    the double nearest to the rational [a/b]; [score_value] is that
    rational. *)
Inductive score : Type :=
| Ratio (num den : Z)
| NaN.

Definition score_value (s : score) : option Q :=
  match s with
  | Ratio a b => Some (a # Z.to_pos b)
  | NaN => None
  end.

(** [np.isnan] *)
Definition isnan (s : score) : bool :=
  match s with NaN => true | Ratio _ _ => false end.

(** ** ragas/llms/cost.py *)

Module Cost.

Record TokenUsage : Type := mkTokenUsage {
  input_tokens : Z;
  output_tokens : Z;
  model : option string
}.

(** [TokenUsage(input_tokens=i, output_tokens=o)]: the [model] field takes
    its default, [None]. *)
Definition TokenUsage_init (i o : Z) : TokenUsage :=
  {| input_tokens := i; output_tokens := o; model := None |}.

Definition is_None {A : Type} (o : option A) : bool :=
  match o with None => true | Some _ => false end.

(** [TokenUsage.__add__] (cost.py, lines 14-21). *)
Definition __add__ (self y : TokenUsage) : result TokenUsage :=
  if bool_decide (model self = model y)
     || (is_None (model self) && is_None (model y))
  then Ok (TokenUsage_init (input_tokens self + input_tokens y)
                           (output_tokens self + output_tokens y))
  else Raise (ValueError "Cannot add TokenUsage objects with different models").

(** [TokenUsage.is_same_model] (lines 43-49). *)
Definition is_same_model (self other : TokenUsage) : bool :=
  if is_None (model self) && is_None (model other) then true
  else if bool_decide (model self = model other) then true
  else false.

(** [TokenUsage.__eq__] (lines 36-41). *)
Definition __eq__ (self other : TokenUsage) : bool :=
  bool_decide (input_tokens self = input_tokens other)
  && bool_decide (output_tokens self = output_tokens other)
  && is_same_model self other.

(** [sum(xs, start)]: Python folds [acc + x] from the left. *)
Definition sum_usage (xs : list TokenUsage) (start : TokenUsage) : result TokenUsage :=
  fold_left (fun acc x => let? a := acc in __add__ a x) xs (Ok start).

(** A completion: [Generation] carries text only, [ChatGeneration] also a
    message whose [response_metadata] is a dict. *)
Inductive Generation : Type :=
| PlainGeneration (text : string)
| ChatGeneration (text : string) (response_metadata : gmap string pyval).

Definition text (g : Generation) : string :=
  match g with
  | PlainGeneration t => t
  | ChatGeneration t _ => t
  end.

(** [LLMResult]: [run] holds one run id per prompt that was sent. *)
Record LLMResult : Type := mkLLMResult {
  generations : list (list Generation);
  llm_output : option (gmap string pyval);
  run : list nat
}.

Section ParseLlmResult.

(** [ragas.utils.get_from_dict(d, dotted_key, default)] is not part of the
    sources at hand; only its use to read an integer counter is. *)
Variable get_from_dict : gmap string pyval -> string -> Z -> Z.

(** The per-completion usage entries collected by the two nested loops of
    [parse_llm_result] (lines 62-81). *)
Definition completion_usage (g : Generation) : list TokenUsage :=
  match g with
  | ChatGeneration _ md =>
      if dict_is_empty md then []
      else [TokenUsage_init (get_from_dict md "usage.input_tokens" 0)
                            (get_from_dict md "usage.output_tokens" 0)]
  | PlainGeneration _ => []
  end.

Definition token_usages (llm_result : LLMResult) : list TokenUsage :=
  concat (map (fun gs => concat (map completion_usage gs)) (generations llm_result)).

(** [parse_llm_result] (lines 52-86).  The [print] of line 83 writes to
    standard output only and is left out. *)
Definition parse_llm_result (llm_result : LLMResult) : result TokenUsage :=
  match llm_output llm_result with
  | Some llm_out =>
      if negb (dict_is_empty llm_out) then
        let output_tokens := get_from_dict llm_out "token_usage.completion_tokens" 0 in
        let input_tokens := get_from_dict llm_out "token_usage.input_tokens" 0 in
        Ok (TokenUsage_init input_tokens output_tokens)
      else
        sum_usage (token_usages llm_result) (TokenUsage_init 0 0)
  | None => Ok (TokenUsage_init 0 0)
  end.

(** [CostCallbackHandler]: its state after [__init__] and its methods
    (lines 89-98). *)
Record CostCallbackHandler : Type := mkHandler {
  usage_data : list TokenUsage;
  llm_result_parser : LLMResult -> result TokenUsage
}.

Definition CostCallbackHandler_init : CostCallbackHandler :=
  {| usage_data := []; llm_result_parser := parse_llm_result |}.

(** [on_llm_end]: the body is [pass]. *)
Definition on_llm_end (self : CostCallbackHandler) (response : LLMResult)
  : CostCallbackHandler := self.

Definition get_usage_data (self : CostCallbackHandler) : list TokenUsage :=
  usage_data self.

End ParseLlmResult.

(** *** Properties of [TokenUsage] addition *)

Definition different_models_error : exn :=
  ValueError "Cannot add TokenUsage objects with different models".

Lemma add_ok_iff (u v : TokenUsage) :
  is_ok (__add__ u v) = true <-> model u = model v.
Proof.
  unfold __add__. destruct (decide (model u = model v)) as [E|E].
  - rewrite bool_decide_eq_true_2 by exact E. simpl. tauto.
  - rewrite bool_decide_eq_false_2 by exact E.
    destruct (model u), (model v); simpl; split; congruence.
Qed.

(** Addition is commutative: both orders raise, or both return the same
    totals. *)
Lemma add_comm (u v : TokenUsage) : __add__ u v = __add__ v u.
Proof.
  unfold __add__.
  rewrite (andb_comm (is_None (model u))).
  rewrite (bool_decide_ext (model u = model v) (model v = model u)) by (split; congruence).
  rewrite (Z.add_comm (input_tokens u)), (Z.add_comm (output_tokens u)).
  reflexivity.
Qed.

(** Two usages with different non-null models cannot be added. *)
Lemma add_different_models (u v : TokenUsage) (a b : string) :
  model u = Some a -> model v = Some b -> a <> b ->
  __add__ u v = Raise different_models_error.
Proof.
  intros Hu Hv Hab. unfold __add__. rewrite Hu, Hv. simpl.
  rewrite bool_decide_eq_false_2 by congruence. reflexivity.
Qed.

(** [TokenUsage(model=None) + TokenUsage(model=None)] succeeds. *)
Lemma add_unset_models (u v : TokenUsage) :
  model u = None -> model v = None ->
  __add__ u v = Ok (TokenUsage_init (input_tokens u + input_tokens v)
                                    (output_tokens u + output_tokens v)).
Proof.
  intros Hu Hv. unfold __add__. rewrite Hu, Hv. reflexivity.
Qed.

(** On usages without a model the sum of three is defined and does not
    depend on the grouping. *)
Lemma add_assoc_unset_models (u v w : TokenUsage) :
  model u = None -> model v = None -> model w = None ->
  (let? s := __add__ u v in __add__ s w) = (let? s := __add__ v w in __add__ u s)
  /\ is_ok (let? s := __add__ u v in __add__ s w) = true.
Proof.
  intros Hu Hv Hw.
  rewrite (add_unset_models u v Hu Hv), (add_unset_models v w Hv Hw). simpl.
  unfold __add__. rewrite Hu, Hw. simpl.
  rewrite !Z.add_assoc. split; reflexivity.
Qed.

Definition gpt4 (i o : Z) : TokenUsage :=
  {| input_tokens := i; output_tokens := o; model := Some "gpt-4" |}.

(** C1 (the code departs from it).  Three usages of the same model
    "gpt-4": the first sum succeeds, but it carries no model, so adding
    the third usage raises "Cannot add TokenUsage objects with different
    models" in either grouping.  The sum of a same-model triple that
    associativity speaks of is therefore not defined. *)
Theorem add_same_model_triple_raises :
  is_same_model (gpt4 1 2) (gpt4 3 4) = true
  /\ is_same_model (gpt4 3 4) (gpt4 5 6) = true
  /\ __add__ (gpt4 1 2) (gpt4 3 4) = Ok (TokenUsage_init 4 6)
  /\ (let? s := __add__ (gpt4 1 2) (gpt4 3 4) in __add__ s (gpt4 5 6))
     = Raise different_models_error
  /\ (let? s := __add__ (gpt4 3 4) (gpt4 5 6) in __add__ (gpt4 1 2) s)
     = Raise different_models_error.
Proof. repeat split; reflexivity. Qed.

(** C10.  When [u] and [v] carry the same non-null model [m], [u + v]
    succeeds with the summed counters, but the sum's [model] is [None];
    hence adding a further usage that carries [m] to the sum raises, on
    either side. *)
Theorem add_same_model_drops_model (u v : TokenUsage) (m : string) :
  model u = Some m -> model v = Some m ->
  exists s,
    __add__ u v = Ok s
    /\ model s = None
    /\ input_tokens s = input_tokens u + input_tokens v
    /\ output_tokens s = output_tokens u + output_tokens v
    /\ forall w, model w = Some m ->
         __add__ s w = Raise different_models_error
         /\ __add__ w s = Raise different_models_error.
Proof.
  intros Hu Hv.
  exists (TokenUsage_init (input_tokens u + input_tokens v)
                          (output_tokens u + output_tokens v)).
  split.
  { unfold __add__. rewrite Hu, Hv. rewrite bool_decide_eq_true_2 by reflexivity.
    reflexivity. }
  repeat split; try reflexivity.
  - unfold __add__. rewrite H. reflexivity.
  - unfold __add__. rewrite H. reflexivity.
Qed.

Lemma add_same_model_drops_model_witness :
  exists s,
    __add__ (gpt4 1 2) (gpt4 3 4) = Ok s
    /\ model s = None
    /\ input_tokens s = input_tokens (gpt4 1 2) + input_tokens (gpt4 3 4)
    /\ output_tokens s = output_tokens (gpt4 1 2) + output_tokens (gpt4 3 4)
    /\ forall w, model w = Some "gpt-4" ->
         __add__ s w = Raise different_models_error
         /\ __add__ w s = Raise different_models_error.
Proof.
  apply (add_same_model_drops_model (gpt4 1 2) (gpt4 3 4) "gpt-4"); reflexivity.
Defined.

(** *** The accounting observer *)

(** With an aggregate usage block the parser reads the two counters from
    it; with [llm_output = None] the usage is zero. *)
Lemma parse_llm_result_aggregate gfd (r : LLMResult) (out : gmap string pyval) :
  llm_output r = Some out -> dict_is_empty out = false ->
  parse_llm_result gfd r
  = Ok (TokenUsage_init (gfd out "token_usage.input_tokens" 0)
                        (gfd out "token_usage.completion_tokens" 0)).
Proof.
  intros Hout Hne. unfold parse_llm_result. rewrite Hout, Hne. reflexivity.
Qed.

Lemma parse_llm_result_no_output gfd (r : LLMResult) :
  llm_output r = None -> parse_llm_result gfd r = Ok (TokenUsage_init 0 0).
Proof. intros Hout. unfold parse_llm_result. rewrite Hout. reflexivity. Qed.


(** C3 (the code departs from it).  Being notified of a completion
    result leaves the observer's usage data as it was: nothing is
    extracted from the response and nothing is appended. *)
Theorem on_llm_end_keeps_usage_data (self : CostCallbackHandler) (response : LLMResult) :
  get_usage_data (on_llm_end self response) = get_usage_data self.
Proof. reflexivity. Qed.

(** A response with an aggregate usage block of 7 input and 5 output
    tokens: the parser the observer holds extracts it, yet the usage data
    of a fresh observer is still empty after the notification. *)
Definition openai_response : LLMResult :=
  {| generations := [[PlainGeneration "Paris"]];
     llm_output := Some {[ "token_usage" :=
       PDict {[ "input_tokens" := PInt 7; "completion_tokens" := PInt 5 ]} ]};
     run := [0%nat] |}.

Definition get_from_dict_example (d : gmap string pyval) (key : string) (default : Z) : Z :=
  match d !! "token_usage" with
  | Some (PDict u) =>
      match u !! (if bool_decide (key = "token_usage.input_tokens") then "input_tokens"
                  else if bool_decide (key = "token_usage.completion_tokens")
                       then "completion_tokens" else key) with
      | Some (PInt z) => z
      | _ => default
      end
  | _ => default
  end.

Example on_llm_end_openai_response :
  let h := CostCallbackHandler_init get_from_dict_example in
  llm_result_parser h openai_response = Ok (TokenUsage_init 7 5)
  /\ get_usage_data (on_llm_end h openai_response) = [].
Proof. split; reflexivity. Qed.

(** *** Further properties of the accounting code *)

(** Equality of usages is equality of their three fields: [None] is the
    same model as [None] only. *)
Theorem eq_iff_same_fields (u v : TokenUsage) :
  __eq__ u v = true <-> u = v.
Proof.
  destruct u as [ui uo um], v as [vi vo vm].
  unfold __eq__, is_same_model. cbn [input_tokens output_tokens model].
  rewrite !andb_true_iff, !bool_decide_eq_true. split.
  - intros [[-> ->] Hm]. f_equal.
    destruct um, vm; cbn [is_None andb] in Hm; try reflexivity;
      case_bool_decide; congruence.
  - intros [= -> -> ->]. repeat split.
    destruct vm; cbn [is_None andb]; [|reflexivity].
    rewrite bool_decide_eq_true_2; reflexivity.
Qed.

(** Two usages can be added exactly when [is_same_model] says they are
    of the same model. *)
Theorem add_ok_iff_same_model (u v : TokenUsage) :
  is_ok (__add__ u v) = is_same_model u v.
Proof.
  unfold __add__, is_same_model.
  destruct (model u), (model v); cbn [is_None andb orb];
    rewrite ?orb_false_r; try case_bool_decide; reflexivity.
Qed.

(** [TokenUsage(0, 0)] is neutral exactly for the usages without a model:
    added to a usage that carries one, it raises. *)
Theorem add_zero_neutral_iff (u : TokenUsage) :
  (__add__ (TokenUsage_init 0 0) u = Ok u <-> model u = None)
  /\ (__add__ u (TokenUsage_init 0 0) = Ok u <-> model u = None).
Proof.
  destruct u as [i o [m|]]; unfold __add__, TokenUsage_init;
    cbn [input_tokens output_tokens model is_None andb orb].
  - rewrite !bool_decide_eq_false_2 by discriminate. cbn [orb].
    split; split; discriminate.
  - rewrite !bool_decide_eq_true_2 by reflexivity. cbn [orb].
    rewrite !Z.add_0_r. split; split; reflexivity.
Qed.

Lemma sum_usage_raise (xs : list TokenUsage) (e : exn) :
  fold_left (fun acc x => let? a := acc in __add__ a x) xs (Raise e) = Raise e.
Proof. induction xs as [|x xs IH]; [reflexivity|exact IH]. Qed.

Lemma sum_usage_cons (x : TokenUsage) (xs : list TokenUsage) (start : TokenUsage) :
  sum_usage (x :: xs) start
  = match __add__ start x with
    | Ok s => sum_usage xs s
    | Raise e => Raise e
    end.
Proof.
  unfold sum_usage. cbn [fold_left bind].
  destruct (__add__ start x); [reflexivity|apply sum_usage_raise].
Qed.

Definition total_input (xs : list TokenUsage) : Z :=
  fold_right Z.add 0 (map input_tokens xs).

Definition total_output (xs : list TokenUsage) : Z :=
  fold_right Z.add 0 (map output_tokens xs).

Lemma sum_usage_unset_totals (xs : list TokenUsage) (start : TokenUsage) :
  model start = None -> Forall (fun x => model x = None) xs ->
  sum_usage xs start
  = Ok {| input_tokens := input_tokens start + total_input xs;
          output_tokens := output_tokens start + total_output xs;
          model := None |}.
Proof.
  intros Hs Hxs. revert start Hs.
  induction Hxs as [|x xs Hx _ IH]; intros start Hs.
  - unfold sum_usage, total_input, total_output. simpl.
    rewrite !Z.add_0_r. destruct start; simpl in *; subst; reflexivity.
  - rewrite sum_usage_cons, (add_unset_models start x Hs Hx).
    rewrite IH by reflexivity. unfold total_input, total_output. simpl.
    rewrite !Z.add_assoc. reflexivity.
Qed.

Lemma add_ok_model (u v s : TokenUsage) :
  __add__ u v = Ok s -> model u = model v /\ model s = None.
Proof.
  intros Hadd. split.
  - apply add_ok_iff. rewrite Hadd. reflexivity.
  - unfold __add__ in Hadd. destruct (_ || _); [|discriminate].
    injection Hadd as <-. reflexivity.
Qed.

Lemma sum_usage_ok_unset (xs : list TokenUsage) (start t : TokenUsage) :
  model start = None -> sum_usage xs start = Ok t ->
  Forall (fun x => model x = None) xs.
Proof.
  revert start. induction xs as [|x xs IH]; intros start Hs Hsum; [constructor|].
  rewrite sum_usage_cons in Hsum.
  destruct (__add__ start x) as [s|e] eqn:Es; [|discriminate].
  destruct (add_ok_model _ _ _ Es) as [Hm Hnone].
  constructor; [congruence|]. exact (IH s Hnone Hsum).
Qed.

(** [sum(xs, start)] succeeds exactly when the first entry has the model
    of [start] and no later entry carries a model: the running total
    loses its model at the first addition. *)
Theorem sum_usage_ok_iff (xs : list TokenUsage) (start : TokenUsage) :
  is_ok (sum_usage xs start) = true
  <-> match xs with
      | [] => True
      | x :: rest => model start = model x /\ Forall (fun y => model y = None) rest
      end.
Proof.
  destruct xs as [|x rest]; [split; reflexivity || trivial|].
  rewrite sum_usage_cons.
  pose proof (add_ok_iff start x) as Hadd.
  destruct (__add__ start x) as [s|e] eqn:Es.
  - assert (Hs : model s = None).
    { unfold __add__ in Es. destruct (_ || _); [|discriminate].
      injection Es as <-. reflexivity. }
    assert (Hm : model start = model x) by (apply Hadd; reflexivity).
    clear Hadd Es. revert s Hs.
    induction rest as [|y rest IH]; intros s Hs.
    + split; [intros _; split; [exact Hm|constructor]|reflexivity].
    + rewrite sum_usage_cons.
      pose proof (add_ok_iff s y) as Hsy.
      destruct (__add__ s y) as [s'|e'] eqn:Esy.
      * assert (Hs' : model s' = None).
        { unfold __add__ in Esy. destruct (_ || _); [|discriminate].
          injection Esy as <-. reflexivity. }
        assert (Hy : model y = None) by (rewrite <- Hs; symmetry; apply Hsy; reflexivity).
        rewrite (IH s' Hs'). split.
        -- intros [_ Hrest]. split; [exact Hm|constructor; assumption].
        -- intros [_ Hrest]. split; [exact Hm|]. inversion Hrest; assumption.
      * split; [discriminate|].
        intros [_ Hrest]. inversion Hrest as [|? ? Hy _]; subst.
        assert (is_ok (Raise (A := TokenUsage) e') = true); [|discriminate].
        apply Hsy. congruence.
  - split; [discriminate|].
    intros [Hm _]. apply Hadd in Hm. discriminate.
Qed.

(** When the sum over entries without a model succeeds from a start
    without a model, its counters are the start's plus the totals of the
    entries. *)
Theorem sum_usage_totals (xs : list TokenUsage) (start t : TokenUsage) :
  model start = None ->
  sum_usage xs start = Ok t ->
  input_tokens t = input_tokens start + total_input xs
  /\ output_tokens t = output_tokens start + total_output xs
  /\ model t = None.
Proof.
  intros Hs Hsum.
  pose proof (sum_usage_ok_unset xs start t Hs Hsum) as Hall.
  rewrite (sum_usage_unset_totals xs start Hs Hall) in Hsum.
  injection Hsum as <-. repeat split.
Qed.

Lemma sum_usage_totals_witness :
  input_tokens (TokenUsage_init 9 12) = input_tokens (TokenUsage_init 0 0)
    + total_input [TokenUsage_init 4 5; TokenUsage_init 5 7]
  /\ output_tokens (TokenUsage_init 9 12) = output_tokens (TokenUsage_init 0 0)
    + total_output [TokenUsage_init 4 5; TokenUsage_init 5 7]
  /\ model (TokenUsage_init 9 12) = None.
Proof.
  apply (sum_usage_totals [TokenUsage_init 4 5; TokenUsage_init 5 7]
           (TokenUsage_init 0 0) (TokenUsage_init 9 12)); reflexivity.
Defined.




(** Two chat completions with Anthropic-style metadata and one without. *)
Definition anthropic_metadata (i o : Z) : gmap string pyval :=
  {[ "usage" := PDict {[ "input_tokens" := PInt i; "output_tokens" := PInt o ]} ]}.

Definition anthropic_response : LLMResult :=
  {| generations := [[ChatGeneration "a" (anthropic_metadata 3 4)];
                     [ChatGeneration "b" ∅; ChatGeneration "c" (anthropic_metadata 10 20)]];
     llm_output := Some ∅;
     run := [0%nat; 1%nat] |}.

Definition get_usage_example (d : gmap string pyval) (key : string) (default : Z) : Z :=
  match d !! "usage" with
  | Some (PDict u) =>
      match u !! (if bool_decide (key = "usage.input_tokens") then "input_tokens"
                  else if bool_decide (key = "usage.output_tokens")
                       then "output_tokens" else key) with
      | Some (PInt z) => z
      | _ => default
      end
  | _ => default
  end.


Example parse_anthropic_response :
  parse_llm_result get_usage_example anthropic_response = Ok (TokenUsage_init 13 24).
Proof. vm_compute. reflexivity. Qed.

End Cost.

(** ** ragas/llms/base.py *)

Module Llm.

Import Cost.

(** The classes of language models the gateway tells apart.  A model is
    tagged with the listed class it is an instance of, if any. *)
Inductive llm_class : Type :=
| OpenAI
| ChatOpenAI
| AzureOpenAI
| AzureChatOpenAI
| ChatVertexAI
| VertexAI
| OtherLLM (name : string).

#[global] Instance llm_class_eq_dec : EqDecision llm_class.
Proof. solve_decision. Defined.

Definition MULTIPLE_COMPLETION_SUPPORTED : list llm_class :=
  [OpenAI; ChatOpenAI; AzureOpenAI; AzureChatOpenAI; ChatVertexAI; VertexAI].

Definition isinstance (llm llm_type : llm_class) : bool :=
  bool_decide (llm = llm_type).

(** [is_multiple_completion_supported] (lines 32-37): the loop returns at
    the first class the model is an instance of. *)
Fixpoint first_instance (llm : llm_class) (types : list llm_class) : bool :=
  match types with
  | [] => false
  | llm_type :: rest => if isinstance llm llm_type then true else first_instance llm rest
  end.

Definition is_multiple_completion_supported (llm : llm_class) : bool :=
  first_instance llm MULTIPLE_COMPLETION_SUPPORTED.

(** [BaseRagasLLM.get_temperature] (lines 42-44).  The float literals
    [0.3] and [1e-8] are kept as the decimal fractions they denote. *)
Definition get_temperature (n : Z) : Q :=
  if 1 <? n then 3 # 10 else 1 # 100000000.

Section Gateway.

Context {PromptValue Callbacks : Type}.

(** The keyword arguments of one [generate_prompt] call; [n_kw] is the
    [n=] argument when the call passes one. *)
Record request : Type := mkRequest {
  prompts : list PromptValue;
  n_kw : option Z;
  temperature : Q;
  stop : option (list string);
  callbacks : option Callbacks
}.

(** The wrapped langchain model: its class, and what its [k]-th call
    (counted from 0) answers to a request. *)
Record BaseLanguageModel : Type := mkLLM {
  llm_type : llm_class;
  generate_prompt : nat -> request -> result LLMResult
}.

(** What a gateway call leaves behind outside its return value: the
    requests sent to the provider, the waits slept between attempts, and
    the number of random draws taken. *)
Record world : Type := mkWorld {
  calls : list request;
  sleeps : list Q;
  draws : nat
}.

Definition M (A : Type) : Type := world -> result A * world.

Definition call_provider (llm : BaseLanguageModel) (req : request) : M LLMResult :=
  fun w =>
    (generate_prompt llm (length (calls w)) req,
     {| calls := calls w ++ [req]; sleeps := sleeps w; draws := draws w |}).

(** [[g[0] for g in generations]]: indexing an empty list raises. *)
Fixpoint first_of_each (gens : list (list Generation)) : result (list Generation) :=
  match gens with
  | [] => Ok []
  | g :: rest =>
      match g with
      | [] => Raise IndexError
      | g0 :: _ => let? tl := first_of_each rest in Ok (g0 :: tl)
      end
  end.

(** The two requests [generate_text] can send (lines 123-129 and
    131-136): one prompt with the [n=] argument, or the prompt repeated
    [n] times without it.  [[prompt] * n] is the empty list when
    [n <= 0]. *)
Definition native_request (prompt : PromptValue) (n : Z) (temperature : Q)
    (stop : option (list string)) (callbacks : option Callbacks) : request :=
  {| prompts := [prompt]; n_kw := Some n; temperature := temperature;
     stop := stop; callbacks := callbacks |}.

Definition repeated_request (prompt : PromptValue) (n : Z) (temperature : Q)
    (stop : option (list string)) (callbacks : option Callbacks) : request :=
  {| prompts := repeat prompt (Z.to_nat n); n_kw := None; temperature := temperature;
     stop := stop; callbacks := callbacks |}.

(** The body of [LangchainLLMWrapper.generate_text] (lines 121-141),
    before the [retry] decorator is applied. *)
Definition generate_text_body (langchain_llm : BaseLanguageModel)
    (prompt : PromptValue) (n : Z) (temperature : Q)
    (stop : option (list string)) (callbacks : option Callbacks) : M LLMResult :=
  let temperature := get_temperature n in
  if is_multiple_completion_supported (llm_type langchain_llm) then
    call_provider langchain_llm (native_request prompt n temperature stop callbacks)
  else
    fun w =>
      match call_provider langchain_llm
              (repeated_request prompt n temperature stop callbacks) w with
      | (Ok result, w') =>
          match first_of_each (generations result) with
          | Ok gens =>
              (Ok {| generations := [gens]; llm_output := llm_output result;
                     run := run result |}, w')
          | Raise e => (Raise e, w')
          end
      | (Raise e, w') => (Raise e, w')
      end.

(** *** tenacity's [retry] *)

(** [wait_exponential(multiplier=1, min, max)] at an attempt number. *)
Definition wait_exponential (min max : Q) (attempt_number : nat) : Q :=
  let exp := inject_Z (2 ^ Z.of_nat (attempt_number - 1)) in
  Qmax (Qmax 0 min) (Qmin exp max).

(** [random.uniform(a, b)] for a draw [r] of [random.random()]. *)
Definition uniform (a b r : Q) : Q := (a + (b - a) * r)%Q.

(** [wait_random_exponential(min, max)]: a uniform draw between [min] and
    the exponential bound, as tenacity defines it since it honours
    [min]. *)
Definition wait_random_exponential (min max : Q) (attempt_number : nat) (r : Q) : Q :=
  uniform min (wait_exponential min max attempt_number) r.

Section Retry.

(** The source of randomness: the [k]-th draw of [random.random()]. *)
Variable random : nat -> Q.

(** [retry(wait=wait_random_exponential(min, max), stop=stop_after_attempt(k))]
    applied to [fn]: attempt [attempt_number] runs [fn]; a result is
    returned as it is; an exception ends the call with [RetryError] when
    no attempt is left, and otherwise is followed by a sleep and the next
    attempt.  [remaining] is [k - attempt_number]. *)
Fixpoint retrying {A : Type} (min max : Q) (remaining attempt_number : nat)
    (fn : M A) (w : world) : result A * world :=
  match fn w with
  | (Ok a, w') => (Ok a, w')
  | (Raise e, w') =>
      match remaining with
      | O => (Raise (RetryError e), w')
      | S remaining' =>
          let sleep := wait_random_exponential min max attempt_number (random (draws w')) in
          retrying min max remaining' (S attempt_number) fn
            {| calls := calls w'; sleeps := sleeps w' ++ [sleep]; draws := S (draws w') |}
      end
  end.

Definition retry {A : Type} (min max : Q) (stop_after_attempt : nat) (fn : M A) : M A :=
  retrying min max (stop_after_attempt - 1) 1 fn.

(** [LangchainLLMWrapper.generate_text] (lines 112-141). *)
Definition generate_text (langchain_llm : BaseLanguageModel)
    (prompt : PromptValue) (n : Z) (temperature : Q)
    (stop : option (list string)) (callbacks : option Callbacks) : M LLMResult :=
  retry 1 60 6 (generate_text_body langchain_llm prompt n temperature stop callbacks).

(** [LangchainLLMWrapper.agenerate_text] (lines 143-172): the same steps,
    awaited one after the other. *)
Definition agenerate_text (langchain_llm : BaseLanguageModel)
    (prompt : PromptValue) (n : Z) (temperature : Q)
    (stop : option (list string)) (callbacks : option Callbacks) : M LLMResult :=
  retry 1 60 6 (generate_text_body langchain_llm prompt n temperature stop callbacks).

(** [BaseRagasLLM.generate] (lines 68-98). *)
Definition generate (langchain_llm : BaseLanguageModel)
    (prompt : PromptValue) (n : Z) (temperature : Q)
    (stop : option (list string)) (callbacks : option Callbacks)
    (is_async : bool) : M LLMResult :=
  if is_async
  then agenerate_text langchain_llm prompt n temperature stop callbacks
  else generate_text langchain_llm prompt n temperature stop callbacks.

(** The request a call of [generate_text] sends at each attempt. *)
Definition sent_request (langchain_llm : BaseLanguageModel)
    (prompt : PromptValue) (n : Z)
    (stop : option (list string)) (callbacks : option Callbacks) : request :=
  if is_multiple_completion_supported (llm_type langchain_llm)
  then native_request prompt n (get_temperature n) stop callbacks
  else repeated_request prompt n (get_temperature n) stop callbacks.

Definition log_call (req : request) (w : world) : world :=
  {| calls := calls w ++ [req]; sleeps := sleeps w; draws := draws w |}.

(** The waits slept after failed attempts [attempt_number],
    [attempt_number + 1], ... ([count] of them), with the draws taken
    from [first_draw] on. *)
Definition backoff_waits (min max : Q) (attempt_number first_draw count : nat) : list Q :=
  map (fun i => wait_random_exponential min max (attempt_number + i) (random (first_draw + i)))
      (seq 0 count).


(** *** Lemmas on the body and on the retry loop *)

Lemma first_of_each_length gens firsts :
  first_of_each gens = Ok firsts -> length firsts = length gens.
Proof.
  revert firsts. induction gens as [|g rest IH]; intros firsts; simpl.
  - intros [= <-]. reflexivity.
  - destruct g as [|g0 g']; [discriminate|].
    destruct (first_of_each rest) as [tl|e]; simpl; [|discriminate].
    intros [= <-]. simpl. f_equal. apply IH. reflexivity.
Qed.

Lemma first_of_each_nonempty gens :
  Forall (fun g => g <> []) gens ->
  exists firsts, first_of_each gens = Ok firsts
                 /\ Forall2 (fun g g0 => head g = Some g0) gens firsts.
Proof.
  induction 1 as [|g rest Hg _ [tl [IH1 IH2]]]; simpl.
  - exists []. split; [reflexivity|constructor].
  - destruct g as [|g0 g']; [congruence|].
    rewrite IH1. simpl. exists (g0 :: tl). split; [reflexivity|].
    constructor; [reflexivity|assumption].
Qed.

(** Every run of the body sends exactly one request, [sent_request]. *)
Lemma generate_text_body_world llm prompt n t stop cb w :
  snd (generate_text_body llm prompt n t stop cb w)
  = log_call (sent_request llm prompt n stop cb) w.
Proof.
  unfold generate_text_body, sent_request.
  destruct (is_multiple_completion_supported (llm_type llm)); [reflexivity|].
  unfold call_provider.
  destruct (generate_prompt llm _ _) as [r|e]; [|reflexivity].
  destruct (first_of_each (generations r)); reflexivity.
Qed.

(** The caller's temperature is not read. *)
Lemma generate_text_body_ignores_temperature llm prompt n t t' stop cb :
  generate_text_body llm prompt n t' stop cb = generate_text_body llm prompt n t stop cb.
Proof. reflexivity. Qed.

Lemma sent_request_temperature llm prompt n stop cb :
  temperature (sent_request llm prompt n stop cb) = get_temperature n.
Proof.
  unfold sent_request.
  destruct (is_multiple_completion_supported (llm_type llm)); reflexivity.
Qed.






Lemma backoff_waits_S (min max : Q) (attempt_number first_draw count : nat) :
  backoff_waits min max attempt_number first_draw (S count)
  = wait_random_exponential min max attempt_number (random first_draw)
    :: backoff_waits min max (S attempt_number) (S first_draw) count.
Proof.
  unfold backoff_waits. simpl. rewrite !Nat.add_0_r. f_equal.
  rewrite <- seq_shift, map_map. apply map_ext. intros i.
  rewrite <- !plus_n_Sm. reflexivity.
Qed.

(** A function that fails at every attempt is run [remaining + 1] times;
    the call ends with [RetryError] around the last failure. *)
Lemma retrying_always_failing {A : Type} (fn : M A) (req : request) (err : nat -> exn)
    (min max : Q) :
  (forall w, fn w = (Raise (err (length (calls w))), log_call req w)) ->
  forall remaining attempt_number w,
    retrying min max remaining attempt_number fn w
    = (Raise (RetryError (err (length (calls w) + remaining)%nat)),
       {| calls := calls w ++ repeat req (S remaining);
          sleeps := sleeps w ++ backoff_waits min max attempt_number (draws w) remaining;
          draws := draws w + remaining |}).
Proof.
  intros Hfn. induction remaining as [|remaining IH]; intros attempt_number w.
  - simpl. rewrite Hfn. unfold log_call, backoff_waits. simpl.
    rewrite !Nat.add_0_r, app_nil_r. reflexivity.
  - simpl. rewrite Hfn. unfold log_call at 1. simpl. rewrite IH. simpl.
    rewrite backoff_waits_S, length_app. simpl.
    rewrite <- !app_assoc. simpl.
    replace (length (calls w) + 1 + remaining)%nat
      with (length (calls w) + S remaining)%nat by lia.
    replace (S (draws w + remaining)) with (draws w + S remaining)%nat by lia.
    reflexivity.
Qed.

(** Whatever the provider answers, the calls a retried function makes
    are one or more copies of the request its body sends. *)
Lemma retrying_calls {A : Type} (fn : M A) (req : request) (min max : Q) :
  (forall w, snd (fn w) = log_call req w) ->
  forall remaining attempt_number w,
    exists k, calls (snd (retrying min max remaining attempt_number fn w))
              = calls w ++ repeat req (S k).
Proof.
  intros Hfn. induction remaining as [|remaining IH]; intros attempt_number w; simpl.
  - specialize (Hfn w). destruct (fn w) as [[a|e] w']; simpl in *; subst w';
      exists 0%nat; reflexivity.
  - pose proof (Hfn w) as Hw. destruct (fn w) as [[a|e] w']; simpl in *; subst w'.
    + exists 0%nat. reflexivity.
    + destruct (IH (S attempt_number)
        {| calls := calls (log_call req w);
           sleeps := sleeps (log_call req w) ++
             [wait_random_exponential min max attempt_number (random (draws (log_call req w)))];
           draws := S (draws (log_call req w)) |}) as [k Hk].
      exists (S k). rewrite Hk. simpl. rewrite <- app_assoc. reflexivity.
Qed.

(** *** The gateway's contract *)


(** C5.  For [n >= 1] and a model without native multi-sample support,
    [generate_text] sends the prompt [n] times in one provider call
    without the [n=] argument.  When the provider answers with one
    non-empty list of completions per prompt, the result holds a single
    list of exactly [n] completions, the first of each per-prompt list,
    and the provider's [run] list and [llm_output] are kept. *)
Theorem generate_text_repacks (llm : BaseLanguageModel) (prompt : PromptValue)
    (n : Z) (t : Q) (stop : option (list string)) (cb : option Callbacks)
    (w : world) (r : LLMResult) :
  1 <= n ->
  is_multiple_completion_supported (llm_type llm) = false ->
  generate_prompt llm (length (calls w))
    (repeated_request prompt n (get_temperature n) stop cb) = Ok r ->
  length (generations r) = length (prompts (repeated_request prompt n (get_temperature n) stop cb)) ->
  Forall (fun g => g <> []) (generations r) ->
  exists completions,
    generate_text llm prompt n t stop cb w
    = (Ok {| generations := [completions]; llm_output := llm_output r; run := run r |},
       log_call (repeated_request prompt n (get_temperature n) stop cb) w)
    /\ Z.of_nat (length completions) = n
    /\ Forall2 (fun g g0 => head g = Some g0) (generations r) completions
    /\ Z.of_nat (length (prompts (repeated_request prompt n (get_temperature n) stop cb))) = n
    /\ Forall (eq prompt) (prompts (repeated_request prompt n (get_temperature n) stop cb))
    /\ n_kw (repeated_request prompt n (get_temperature n) stop cb) = None.
Proof.
  intros Hn Hunsupported Hanswer Hlen Hnonempty.
  destruct (first_of_each_nonempty _ Hnonempty) as [completions [Hfirst Hheads]].
  exists completions.
  assert (Hprompts : length (prompts (repeated_request prompt n (get_temperature n) stop cb))
                     = Z.to_nat n).
  { simpl. apply repeat_length. }
  split; [|split; [|split; [|split; [|split]]]].
  - unfold generate_text, retry. simpl.
    unfold generate_text_body. rewrite Hunsupported.
    unfold call_provider. rewrite Hanswer, Hfirst. reflexivity.
  - rewrite (first_of_each_length _ _ Hfirst), Hlen, Hprompts. lia.
  - exact Hheads.
  - rewrite Hprompts. lia.
  - simpl. apply Forall_forall. intros x Hx.
    apply list_elem_of_In, repeat_spec in Hx. congruence.
  - reflexivity.
Qed.

(** C8.  Whatever temperature [t] the caller passes, every request that
    [generate_text] sends (there is at least one) carries temperature
    [1e-8] when [n = 1] and [0.3] when [n > 1]; the caller's value is
    never read, so with the same [n] two calls behave alike. *)
Theorem generate_text_temperature_policy (llm : BaseLanguageModel) (prompt : PromptValue)
    (n : Z) (t : Q) (stop : option (list string)) (cb : option Callbacks) (w : world) :
  1 <= n ->
  exists k,
    calls (snd (generate_text llm prompt n t stop cb w))
    = calls w ++ repeat (sent_request llm prompt n stop cb) (S k)
    /\ temperature (sent_request llm prompt n stop cb)
       = (if n =? 1 then 1 # 100000000 else 3 # 10)
    /\ get_temperature n = (if n =? 1 then 1 # 100000000 else 3 # 10)
    /\ (forall t', generate_text llm prompt n t' stop cb w
                   = generate_text llm prompt n t stop cb w)
    /\ (forall t', agenerate_text llm prompt n t' stop cb w
                   = agenerate_text llm prompt n t stop cb w).
Proof.
  intros Hn.
  assert (Htemp : get_temperature n = (if n =? 1 then 1 # 100000000 else 3 # 10)).
  { unfold get_temperature. destruct (Z.eqb_spec n 1) as [->|Hne]; [reflexivity|].
    rewrite (proj2 (Z.ltb_lt 1 n)) by lia. reflexivity. }
  destruct (retrying_calls (generate_text_body llm prompt n t stop cb)
              (sent_request llm prompt n stop cb) 1 60
              (fun w0 => generate_text_body_world llm prompt n t stop cb w0)
              5%nat 1%nat w) as [k Hk].
  exists k. split; [exact Hk|].
  split; [rewrite sent_request_temperature; exact Htemp|].
  split; [exact Htemp|].
  split; reflexivity.
Qed.

(** *** Further properties of the gateway *)

Lemma first_of_each_empty gens :
  Exists (fun g => g = []) gens -> first_of_each gens = Raise IndexError.
Proof.
  induction gens as [|g rest IH]; intros Hex.
  - inversion Hex.
  - destruct g as [|g0 g']; [reflexivity|].
    cbn [first_of_each]. rewrite IH; [reflexivity|].
    inversion Hex as [? ? Hg|? ? Hrest]; [discriminate|exact Hrest].
Qed.

(** Re-packing succeeds exactly when every per-prompt list has a
    completion; it then keeps the first completion of each list, in
    order; and the only exception it raises is [IndexError]. *)
Theorem first_of_each_spec (gens : list (list Generation)) :
  (is_ok (first_of_each gens) = true <-> Forall (fun g => g <> []) gens)
  /\ (forall firsts, first_of_each gens = Ok firsts -> map head gens = map Some firsts)
  /\ (forall e, first_of_each gens = Raise e -> e = IndexError).
Proof.
  induction gens as [|g rest [IHok [IHmap IHraise]]].
  - split; [split; [constructor|reflexivity]|].
    split; [intros firsts [= <-]; reflexivity|discriminate].
  - destruct g as [|g0 g']; cbn [first_of_each].
    + split; [split; [discriminate|]|].
      * intros Hall. inversion Hall; congruence.
      * split; [discriminate|intros e [= <-]; reflexivity].
    + destruct (first_of_each rest) as [tl|e0]; cbn [bind].
      * split; [split; [intros _|reflexivity]|].
        -- constructor; [discriminate|]. apply IHok. reflexivity.
        -- split; [|discriminate].
           intros firsts [= <-]. cbn [map head]. f_equal. apply IHmap. reflexivity.
      * split; [split; [discriminate|]|].
        -- intros Hall. inversion Hall; subst. apply IHok. assumption.
        -- split; [discriminate|]. intros e [= <-]. apply IHraise. reflexivity.
Qed.

(** A function that fails [k] times and then returns is run [k + 1]
    times when at least [k] attempts remain, and its result is returned. *)
Lemma retrying_recovers {A : Type} (fn : M A) (req : request) (err : nat -> exn) (a : A)
    (min max : Q) :
  forall k remaining attempt_number w,
    (k <= remaining)%nat ->
    (forall w', (length (calls w) <= length (calls w') < length (calls w) + k)%nat ->
                fn w' = (Raise (err (length (calls w'))), log_call req w')) ->
    (forall w', length (calls w') = (length (calls w) + k)%nat ->
                fn w' = (Ok a, log_call req w')) ->
    retrying min max remaining attempt_number fn w
    = (Ok a,
       {| calls := calls w ++ repeat req (S k);
          sleeps := sleeps w ++ backoff_waits min max attempt_number (draws w) k;
          draws := draws w + k |}).
Proof.
  induction k as [|k IH]; intros remaining attempt_number w Hk Hfail Hok.
  - assert (Hfn : fn w = (Ok a, log_call req w)) by (apply Hok; lia).
    destruct remaining; cbn [retrying]; rewrite Hfn; unfold log_call, backoff_waits;
      simpl; rewrite Nat.add_0_r, app_nil_r; reflexivity.
  - destruct remaining as [|remaining]; [lia|].
    assert (Hfn : fn w = (Raise (err (length (calls w))), log_call req w))
      by (apply Hfail; lia).
    cbn [retrying]. rewrite Hfn. rewrite IH.
    + unfold log_call. cbn [calls sleeps draws]. rewrite backoff_waits_S.
      rewrite <- !app_assoc. cbn [app repeat].
      replace (S (draws w) + k)%nat with (draws w + S k)%nat by lia.
      reflexivity.
    + lia.
    + intros w' Hw'. unfold log_call in Hw'. cbn [calls] in Hw'.
      rewrite length_app in Hw'. simpl in Hw'. apply Hfail. lia.
    + intros w' Hw'. unfold log_call in Hw'. cbn [calls] in Hw'.
      rewrite length_app in Hw'. simpl in Hw'. apply Hok. lia.
Qed.

(** For a model with native multi-sample support: when the provider
    fails [k <= 5] times and then answers, [generate_text] returns that
    answer unchanged after [k + 1] calls, each with the single prompt and
    the [n=] argument, and [k] sleeps.  With [k = 0] the first answer is
    returned at once. *)
Theorem generate_text_recovers (llm : BaseLanguageModel) (prompt : PromptValue)
    (n : Z) (t : Q) (stop : option (list string)) (cb : option Callbacks)
    (err : nat -> exn) (r : LLMResult) (k : nat) (w : world) :
  (k <= 5)%nat ->
  is_multiple_completion_supported (llm_type llm) = true ->
  (forall j req, (j < k)%nat ->
     generate_prompt llm (length (calls w) + j) req = Raise (err (length (calls w) + j)%nat)) ->
  (forall req, generate_prompt llm (length (calls w) + k) req = Ok r) ->
  generate_text llm prompt n t stop cb w
  = (Ok r,
     {| calls := calls w ++ repeat (native_request prompt n (get_temperature n) stop cb) (S k);
        sleeps := sleeps w ++ backoff_waits 1 60 1 (draws w) k;
        draws := draws w + k |}).
Proof.
  intros Hk Hsup Hfail Hok. unfold generate_text, retry.
  apply (retrying_recovers _ (native_request prompt n (get_temperature n) stop cb) err r);
    [exact Hk| |].
  - intros w' Hw'. unfold generate_text_body. rewrite Hsup.
    unfold call_provider, log_call.
    replace (length (calls w')) with (length (calls w) + (length (calls w') - length (calls w)))%nat
      at 1 by lia.
    rewrite Hfail by lia.
    replace (length (calls w) + (length (calls w') - length (calls w)))%nat
      with (length (calls w')) by lia.
    reflexivity.
  - intros w' Hw'. unfold generate_text_body. rewrite Hsup.
    unfold call_provider, log_call. rewrite Hw', Hok. reflexivity.
Qed.

(** For a model without native multi-sample support: when the provider
    keeps answering with some per-prompt list empty, the [IndexError] of
    the re-packing is retried like a provider failure; after 6 calls
    [generate_text] raises [RetryError] around it. *)
Theorem generate_text_empty_completions (llm : BaseLanguageModel) (prompt : PromptValue)
    (n : Z) (t : Q) (stop : option (list string)) (cb : option Callbacks) (w : world) :
  is_multiple_completion_supported (llm_type llm) = false ->
  (forall k req, exists r, generate_prompt llm k req = Ok r
                           /\ Exists (fun g => g = []) (generations r)) ->
  generate_text llm prompt n t stop cb w
  = (Raise (RetryError IndexError),
     {| calls := calls w ++ repeat (repeated_request prompt n (get_temperature n) stop cb) 6;
        sleeps := sleeps w ++ backoff_waits 1 60 1 (draws w) 5;
        draws := draws w + 5 |}).
Proof.
  intros Hunsup Hempty. unfold generate_text, retry.
  apply (retrying_always_failing _
           (repeated_request prompt n (get_temperature n) stop cb)
           (fun _ => IndexError) 1 60).
  intros w0. unfold generate_text_body. rewrite Hunsup.
  unfold call_provider.
  destruct (Hempty (length (calls w0))
              (repeated_request prompt n (get_temperature n) stop cb)) as [r [Hr Hex]].
  rewrite Hr, (first_of_each_empty _ Hex). reflexivity.
Qed.

Lemma retrying_outcome {A : Type} (fn : M A) (req : request) (min max : Q) :
  (forall w, snd (fn w) = log_call req w) ->
  forall remaining attempt_number w,
    exists k,
      (k <= remaining)%nat
      /\ snd (retrying min max remaining attempt_number fn w)
         = {| calls := calls w ++ repeat req (S k);
              sleeps := sleeps w ++ backoff_waits min max attempt_number (draws w) k;
              draws := draws w + k |}
      /\ (forall e, fst (retrying min max remaining attempt_number fn w) = Raise e ->
                    k = remaining /\ exists last, e = RetryError last).
Proof.
  intros Hfn. induction remaining as [|remaining IH]; intros attempt_number w.
  - exists 0%nat. cbn [retrying]. pose proof (Hfn w) as Hw.
    destruct (fn w) as [[a|e0] w']; cbn [snd fst] in *; subst w';
      unfold log_call, backoff_waits; simpl; rewrite Nat.add_0_r, app_nil_r;
      (split; [lia|split; [reflexivity|]]).
    + discriminate.
    + intros e [= <-]. split; [reflexivity|eauto].
  - cbn [retrying]. pose proof (Hfn w) as Hw.
    destruct (fn w) as [[a|e0] w']; cbn [snd fst] in *; subst w'.
    + exists 0%nat. unfold log_call, backoff_waits; simpl.
      rewrite Nat.add_0_r, app_nil_r.
      split; [lia|split; [reflexivity|discriminate]].
    + unfold log_call at 1 2 3 4. cbn [calls sleeps draws].
      match goal with
      | |- context [retrying min max remaining (S attempt_number) fn ?w1] =>
          destruct (IH (S attempt_number) w1) as [k [Hk [Hworld Hraise]]]
      end.
      exists (S k). split; [lia|]. split.
      * rewrite Hworld. cbn [calls sleeps draws]. rewrite backoff_waits_S.
        rewrite <- !app_assoc. cbn [app repeat].
        replace (S (draws w) + k)%nat with (draws w + S k)%nat by lia.
        reflexivity.
      * intros e He. destruct (Hraise e He) as [-> Hlast]. split; [reflexivity|exact Hlast].
Qed.

(** Whatever the provider does, [generate_text] sends the same request
    between 1 and 6 times and sleeps once between two consecutive calls;
    if it raises, it has made all 6 calls and the exception is a
    [RetryError]. *)
Theorem generate_text_outcome (llm : BaseLanguageModel) (prompt : PromptValue)
    (n : Z) (t : Q) (stop : option (list string)) (cb : option Callbacks) (w : world) :
  exists k,
    (k <= 5)%nat
    /\ snd (generate_text llm prompt n t stop cb w)
       = {| calls := calls w ++ repeat (sent_request llm prompt n stop cb) (S k);
            sleeps := sleeps w ++ backoff_waits 1 60 1 (draws w) k;
            draws := draws w + k |}
    /\ (forall e, fst (generate_text llm prompt n t stop cb w) = Raise e ->
                  k = 5%nat /\ exists last, e = RetryError last).
Proof.
  unfold generate_text, retry.
  apply (retrying_outcome _ (sent_request llm prompt n stop cb) 1 60).
  intros w0. apply generate_text_body_world.
Qed.

End Retry.

End Gateway.

(** *** Instances *)

(** A provider whose every call fails with a numbered error. *)
Definition failing_llm : @BaseLanguageModel string unit :=
  {| llm_type := OtherLLM "ChatAnthropic";
     generate_prompt := fun k _ => Raise (ProviderError k) |}.

(** A provider without native multi-sample support that answers every
    prompt with one completion. *)
Definition echo_llm : @BaseLanguageModel string unit :=
  {| llm_type := OtherLLM "ChatAnthropic";
     generate_prompt := fun k req =>
       Ok {| generations := map (fun p => [PlainGeneration p]) (prompts req);
             llm_output := Some ∅;
             run := seq 0 (length (prompts req)) |} |}.

Definition world0 : @world string unit :=
  {| calls := []; sleeps := []; draws := 0 |}.

Definition half (k : nat) : Q := 1 # 2.


Lemma generate_text_repacks_witness :
  exists completions,
    generate_text half echo_llm "q" 3 (1 # 2) None None world0
    = (Ok {| generations := [completions]; llm_output := Some ∅; run := [0; 1; 2]%nat |},
       log_call (repeated_request "q" 3 (get_temperature 3) None None) world0)
    /\ Z.of_nat (length completions) = 3
    /\ Forall2 (fun g g0 => head g = Some g0)
         [[PlainGeneration "q"]; [PlainGeneration "q"]; [PlainGeneration "q"]] completions
    /\ Z.of_nat (length (prompts (repeated_request (Callbacks := unit) "q" 3
                                   (get_temperature 3) None None))) = 3
    /\ Forall (eq "q") (prompts (repeated_request (Callbacks := unit) "q" 3
                                  (get_temperature 3) None None))
    /\ n_kw (repeated_request (Callbacks := unit) "q" 3 (get_temperature 3) None None) = None.
Proof.
  apply (generate_text_repacks half echo_llm "q" 3 (1 # 2) None None world0
           {| generations := [[PlainGeneration "q"]; [PlainGeneration "q"]; [PlainGeneration "q"]];
              llm_output := Some ∅; run := [0; 1; 2]%nat |}).
  - lia.
  - reflexivity.
  - reflexivity.
  - reflexivity.
  - repeat constructor; discriminate.
Defined.

Lemma generate_text_temperature_policy_witness :
  exists k,
    calls (snd (generate_text half echo_llm "q" 3 (7 # 10) None None world0))
    = calls world0 ++ repeat (sent_request echo_llm "q" 3 None None) (S k)
    /\ temperature (sent_request echo_llm "q" 3 None None)
       = (if 3 =? 1 then 1 # 100000000 else 3 # 10)
    /\ get_temperature 3 = (if 3 =? 1 then 1 # 100000000 else 3 # 10)
    /\ (forall t', generate_text half echo_llm "q" 3 t' None None world0
                   = generate_text half echo_llm "q" 3 (7 # 10) None None world0)
    /\ (forall t', agenerate_text half echo_llm "q" 3 t' None None world0
                   = agenerate_text half echo_llm "q" 3 (7 # 10) None None world0).
Proof.
  apply (generate_text_temperature_policy half echo_llm "q" 3 (7 # 10) None None world0).
  lia.
Defined.

(** The observed runs: six identical requests and five waits against the
    failing provider; one request of three prompts against the other. *)
Example failing_llm_run :
  let '(r, w) := generate_text half failing_llm "q" 1 (1 # 2) None None world0 in
  r = Raise (RetryError (ProviderError 5))
  /\ length (calls w) = 6%nat
  /\ map Qred (sleeps w) = [1; 3 # 2; 5 # 2; 9 # 2; 17 # 2]%Q.
Proof. vm_compute. repeat split. Qed.

Example echo_llm_run :
  let '(r, w) := generate_text half echo_llm "q" 3 (7 # 10) None None world0 in
  r = Ok {| generations := [[PlainGeneration "q"; PlainGeneration "q"; PlainGeneration "q"]];
            llm_output := Some ∅; run := [0; 1; 2]%nat |}
  /\ map temperature (calls w) = [3 # 10]
  /\ map (fun req => length (prompts req)) (calls w) = [3%nat].
Proof. vm_compute. repeat split. Qed.

(** *** Further instances *)



(** A provider with native support whose first two calls fail. *)
Definition flaky_llm : @BaseLanguageModel string unit :=
  {| llm_type := ChatOpenAI;
     generate_prompt := fun k req =>
       if (k <? 2)%nat then Raise (ProviderError k)
       else Ok {| generations := [[PlainGeneration "a"; PlainGeneration "b"]];
                  llm_output := None; run := [0%nat] |} |}.

Lemma generate_text_recovers_witness :
  generate_text half flaky_llm "q" 2 (1 # 2) None None world0
  = (Ok {| generations := [[PlainGeneration "a"; PlainGeneration "b"]];
           llm_output := None; run := [0%nat] |},
     {| calls := calls world0
                 ++ repeat (native_request "q" 2 (get_temperature 2) None None) 3;
        sleeps := sleeps world0 ++ backoff_waits half 1 60 1 (draws world0) 2;
        draws := draws world0 + 2 |}).
Proof.
  apply (generate_text_recovers half flaky_llm "q" 2 (1 # 2) None None ProviderError
           {| generations := [[PlainGeneration "a"; PlainGeneration "b"]];
              llm_output := None; run := [0%nat] |} 2 world0).
  - lia.
  - reflexivity.
  - intros j req Hj. simpl. destruct j as [|[|j]]; [reflexivity|reflexivity|lia].
  - intros req. reflexivity.
Defined.

(** A provider without native support that answers no completion at all
    for each prompt. *)
Definition silent_llm : @BaseLanguageModel string unit :=
  {| llm_type := OtherLLM "FakeListLLM";
     generate_prompt := fun k req =>
       Ok {| generations := [[]]; llm_output := None; run := [0%nat] |} |}.

Lemma generate_text_empty_completions_witness :
  generate_text half silent_llm "q" 1 (1 # 2) None None world0
  = (Raise (RetryError IndexError),
     {| calls := calls world0
                 ++ repeat (repeated_request "q" 1 (get_temperature 1) None None) 6;
        sleeps := sleeps world0 ++ backoff_waits half 1 60 1 (draws world0) 5;
        draws := draws world0 + 5 |}).
Proof.
  apply (generate_text_empty_completions half silent_llm "q" 1 (1 # 2) None None world0).
  - reflexivity.
  - intros k req. eexists. split; [reflexivity|]. constructor. reflexivity.
Defined.

End Llm.

(** ** ragas/metrics/_faithfulness.py *)

Module Faithfulness.

(** [str.lower] on the letters A-Z.  The keys of [verdict_score_map] are
    made of ASCII letters only, and no other character lowers to one of
    them, so on the bytes of a string this decides the lookup as Python's
    [lower] does. *)
Definition lower_ascii (c : ascii) : ascii :=
  let n := N_of_ascii c in
  if ((65 <=? n) && (n <=? 90))%N then ascii_of_N (n + 32) else c.

Fixpoint lower (s : string) : string :=
  match s with
  | EmptyString => EmptyString
  | String c s' => String (lower_ascii c) (lower s')
  end.

(** The values the verdict sum ranges over: an [int], or the float
    [np.nan]. *)
Inductive pynum : Type :=
| PyInt (z : Z)
| PyNaN.

(** [a + b]: adding [nan] gives [nan]. *)
Definition py_add (a b : pynum) : pynum :=
  match a, b with
  | PyInt x, PyInt y => PyInt (x + y)
  | _, _ => PyNaN
  end.

(** [a / n] for a non-zero [int] [n]. *)
Definition true_div (a : pynum) (n : Z) : score :=
  match a with
  | PyInt x => Ratio x n
  | PyNaN => NaN
  end.

(** [verdict_score_map] (line 171). *)
Definition verdict_score_map : gmap string pynum :=
  {[ "yes" := PyInt 1; "no" := PyInt 0; "null" := PyNaN ]}.

(** One term of the generator of lines 175-176:
    [verdict_score_map.get(dict.get("verdict", "").lower(), np.nan)].
    Only a dict has [get] and only a string has [lower]. *)
Definition verdict_value (item : pyval) : result pynum :=
  match item with
  | PDict d =>
      match default (PStr "") (d !! "verdict") with
      | PStr verdict => Ok (default PyNaN (verdict_score_map !! lower verdict))
      | _ => Raise (AttributeError "lower")
      end
  | _ => Raise (AttributeError "get")
  end.

(** [sum(...)] from [0] (lines 174-177). *)
Definition sum_verdicts (output : list pyval) : result pynum :=
  fold_left (fun acc item =>
               let? a := acc in
               let? v := verdict_value item in
               Ok (py_add a v))
            output (Ok (PyInt 0)).

(** The scoring step of [Faithfulness.ascore] (lines 173-184), applied to
    the value [json_loader.safe_load] returned for the verification
    reply. *)
Definition ascore_verdicts (loaded : pyval) : result score :=
  let output := match loaded with PList l => l | _ => [] end in
  let? faithful_statements := sum_verdicts output in
  let num_statements := Z.of_nat (length output) in
  if num_statements =? 0 then Ok NaN
  else Ok (true_div faithful_statements num_statements).

(** A verdict record as the verification reply carries it: a dict whose
    ["verdict"] is the text [verdict], with any other entries. *)
Definition verdict_record (item : string * gmap string pyval) : pyval :=
  PDict (<["verdict" := PStr item.1]> item.2).

Definition is_yes (verdict : string) : bool := bool_decide (lower verdict = "yes").
Definition is_no (verdict : string) : bool := bool_decide (lower verdict = "no").
Definition recognized (verdict : string) : bool := is_yes verdict || is_no verdict.

Definition count_yes (verdicts : list string) : Z :=
  Z.of_nat (length (filter (fun v => is_yes v = true) verdicts)).

(** The scoring rule in the specification's words: yes counts 1, no
    counts 0, an unrecognized verdict adds 0 to the sum and stays in the
    count; the score is undefined only without any verdict. *)
Definition spec_verdict_value (verdict : string) : Z :=
  if is_yes verdict then 1 else 0.

Definition spec_score (verdicts : list string) : score :=
  match verdicts with
  | [] => NaN
  | _ => Ratio (fold_right Z.add 0 (map spec_verdict_value verdicts))
               (Z.of_nat (length verdicts))
  end.

(** *** Lemmas *)

Lemma verdict_score_map_lookup (key : string) :
  verdict_score_map !! key
  = if decide (key = "yes") then Some (PyInt 1)
    else if decide (key = "no") then Some (PyInt 0)
    else if decide (key = "null") then Some PyNaN
    else None.
Proof.
  unfold verdict_score_map.
  repeat case_decide; subst; simplify_map_eq; reflexivity.
Qed.

Lemma verdict_value_record (item : string * gmap string pyval) :
  verdict_value (verdict_record item)
  = Ok (if is_yes item.1 then PyInt 1
        else if is_no item.1 then PyInt 0 else PyNaN).
Proof.
  unfold verdict_value, verdict_record, is_yes, is_no.
  rewrite lookup_insert_eq. simpl. rewrite verdict_score_map_lookup.
  repeat case_decide; repeat case_bool_decide; try congruence; reflexivity.
Qed.

Lemma count_yes_cons (v : string) (vs : list string) :
  count_yes (v :: vs) = (if is_yes v then 1 else 0) + count_yes vs.
Proof.
  unfold count_yes. rewrite filter_cons.
  destruct (is_yes v) eqn:E.
  - rewrite decide_True by reflexivity. simpl length. lia.
  - rewrite decide_False by discriminate. lia.
Qed.

Lemma is_yes_not_no (v : string) : is_yes v = true -> is_no v = false.
Proof.
  unfold is_yes, is_no. intros H%bool_decide_eq_true.
  apply bool_decide_eq_false. rewrite H. discriminate.
Qed.

(** The sum, once it is [nan], stays [nan]. *)
Lemma fold_verdicts_nan (items : list (string * gmap string pyval)) :
  fold_left (fun acc item =>
               let? a := acc in
               let? v := verdict_value item in
               Ok (py_add a v))
            (map verdict_record items) (Ok PyNaN)
  = Ok PyNaN.
Proof.
  induction items as [|item items IH]; [reflexivity|].
  cbn [map fold_left bind]. rewrite verdict_value_record. cbn [bind].
  destruct (is_yes item.1), (is_no item.1); exact IH.
Qed.

Lemma fold_verdicts_int (items : list (string * gmap string pyval)) (a : Z) :
  fold_left (fun acc item =>
               let? a := acc in
               let? v := verdict_value item in
               Ok (py_add a v))
            (map verdict_record items) (Ok (PyInt a))
  = Ok (if forallb recognized (map fst items)
        then PyInt (a + count_yes (map fst items)) else PyNaN).
Proof.
  revert a. induction items as [|item items IH]; intros a.
  - simpl. unfold count_yes. simpl. rewrite Z.add_0_r. reflexivity.
  - cbn [map fold_left forallb bind]. rewrite verdict_value_record. cbn [bind].
    rewrite count_yes_cons. unfold recognized at 1.
    destruct (is_yes item.1) eqn:Ey.
    + cbn [py_add orb andb]. rewrite IH.
      destruct (forallb recognized (map fst items)); [|reflexivity].
      do 2 f_equal. lia.
    + destruct (is_no item.1) eqn:En.
      * cbn [py_add orb andb]. rewrite IH.
        destruct (forallb recognized (map fst items)); [|reflexivity].
        do 2 f_equal. lia.
      * cbn [py_add orb andb]. apply fold_verdicts_nan.
Qed.

Lemma sum_verdicts_records (items : list (string * gmap string pyval)) :
  sum_verdicts (map verdict_record items)
  = Ok (if forallb recognized (map fst items)
        then PyInt (count_yes (map fst items)) else PyNaN).
Proof. unfold sum_verdicts. rewrite fold_verdicts_int. reflexivity. Qed.

Lemma count_yes_all (verdicts : list string) :
  Forall (fun v => is_yes v = true) verdicts ->
  count_yes verdicts = Z.of_nat (length verdicts).
Proof.
  induction 1 as [|v vs Hv _ IH]; [reflexivity|].
  rewrite count_yes_cons, Hv, IH. simpl length. lia.
Qed.

Lemma count_yes_none (verdicts : list string) :
  Forall (fun v => is_yes v = false) verdicts -> count_yes verdicts = 0.
Proof.
  induction 1 as [|v vs Hv _ IH]; [reflexivity|].
  rewrite count_yes_cons, Hv, IH. reflexivity.
Qed.

(** *** The score *)

(** A reply that is not a list counts as no verdicts. *)
Lemma ascore_verdicts_not_a_list (loaded : pyval) :
  (forall l, loaded <> PList l) -> ascore_verdicts loaded = Ok NaN.
Proof.
  intros Hl. destruct loaded; try reflexivity. exfalso. eapply Hl. reflexivity.
Qed.

(** A record without a ["verdict"] entry counts as the verdict [""],
    which is not recognized. *)
Example ascore_verdicts_missing_verdict :
  ascore_verdicts (PList [PDict {[ "reason" := PStr "none given" ]}]) = Ok NaN.
Proof. vm_compute. reflexivity. Qed.

(** An item that is not a dict, or a verdict that is not a string, ends
    the scoring with an exception. *)
Example ascore_verdicts_raises :
  ascore_verdicts (PList [PStr "Yes"]) = Raise (AttributeError "get")
  /\ ascore_verdicts (PList [PDict {[ "verdict" := PBool true ]}])
     = Raise (AttributeError "lower").
Proof. split; vm_compute; reflexivity. Qed.

(** The closed form of the score over verdict records. *)
Lemma ascore_verdicts_records (items : list (string * gmap string pyval)) :
  ascore_verdicts (PList (map verdict_record items))
  = Ok (match items with
        | [] => NaN
        | _ :: _ =>
            if forallb recognized (map fst items)
            then Ratio (count_yes (map fst items)) (Z.of_nat (length items))
            else NaN
        end).
Proof.
  unfold ascore_verdicts. rewrite sum_verdicts_records. cbn [bind].
  rewrite length_map.
  destruct items as [|item items]; [reflexivity|].
  replace (Z.of_nat (length (item :: items)) =? 0) with false
    by (symmetry; apply Z.eqb_neq; simpl length; lia).
  destruct (forallb recognized (map fst (item :: items))); reflexivity.
Qed.

(** C2, as the code has it.  For every list of verdict records, the
    verdict text is lowered and mapped yes to 1, no to 0, anything else
    to [nan].  With at least one verdict and all of them recognized the
    score is the number of yes verdicts divided by the number of
    verdicts; a single unrecognized verdict makes the sum, and with it
    the score, [nan]; without any verdict the score is [nan]. *)
Theorem ascore_verdicts_amended (items : list (string * gmap string pyval)) :
  Forall (fun item =>
            verdict_value (verdict_record item)
            = Ok (if is_yes item.1 then PyInt 1
                  else if is_no item.1 then PyInt 0 else PyNaN)) items
  /\ ascore_verdicts (PList (map verdict_record items))
     = Ok (match items with
           | [] => NaN
           | _ :: _ =>
               if forallb recognized (map fst items)
               then Ratio (count_yes (map fst items)) (Z.of_nat (length items))
               else NaN
           end).
Proof.
  split.
  - apply Forall_forall. intros item _. apply verdict_value_record.
  - apply ascore_verdicts_records.
Qed.

(** C2 as stated fails: with the verdicts "Yes" and "maybe" the rule of
    the specification gives 1/2 (the unrecognized verdict adding 0),
    while the code returns [nan]. *)
Lemma ascore_verdicts_unrecognized_counterexample :
  ascore_verdicts (PList [verdict_record ("Yes", ∅); verdict_record ("maybe", ∅)]) = Ok NaN
  /\ spec_score ["Yes"; "maybe"] = Ratio 1 2
  /\ ascore_verdicts (PList [verdict_record ("Yes", ∅); verdict_record ("maybe", ∅)])
     <> Ok (spec_score ["Yes"; "maybe"]).
Proof.
  assert (H : ascore_verdicts
                (PList [verdict_record ("Yes", ∅); verdict_record ("maybe", ∅)]) = Ok NaN)
    by (vm_compute; reflexivity).
  split; [exact H|]. split; [reflexivity|].
  rewrite H. discriminate.
Qed.

(** C6.  When at least one verdict is returned and every verdict lowers
    to "yes", the score is [k / k = 1.0]; when every verdict lowers to
    "no" it is [0 / k = 0.0]; and when no verdict is returned the score
    is [nan], which is not a number and in particular not zero. *)
Theorem ascore_verdicts_boundary (items : list (string * gmap string pyval)) (yes : bool) :
  items <> [] ->
  Forall (fun v => lower v = if yes then "yes" else "no") (map fst items) ->
  ascore_verdicts (PList (map verdict_record items))
  = Ok (Ratio (if yes then Z.of_nat (length items) else 0) (Z.of_nat (length items)))
  /\ (exists q,
        score_value (Ratio (if yes then Z.of_nat (length items) else 0)
                           (Z.of_nat (length items))) = Some q
        /\ (q == if yes then 1 else 0)%Q)
  /\ ascore_verdicts (PList []) = Ok NaN
  /\ isnan NaN = true
  /\ score_value NaN = None.
Proof.
  intros Hne Hall.
  assert (Hrec : forallb recognized (map fst items) = true).
  { apply forallb_forall. intros v Hv.
    rewrite Forall_forall in Hall. specialize (Hall v).
    unfold recognized, is_yes, is_no.
    rewrite <- list_elem_of_In in Hv. specialize (Hall Hv). rewrite Hall.
    destruct yes; reflexivity. }
  assert (Hcount : count_yes (map fst items)
                   = if yes then Z.of_nat (length items) else 0).
  { destruct yes.
    - rewrite count_yes_all, length_map; [reflexivity|].
      eapply Forall_impl; [exact Hall|]. intros v Hv. unfold is_yes.
      apply bool_decide_eq_true. exact Hv.
    - apply count_yes_none.
      eapply Forall_impl; [exact Hall|]. intros v Hv. unfold is_yes.
      apply bool_decide_eq_false. rewrite Hv. discriminate. }
  split; [|split; [|repeat split]].
  - rewrite ascore_verdicts_records.
    destruct items as [|item items]; [congruence|].
    rewrite Hrec, Hcount. reflexivity.
  - eexists. split; [reflexivity|].
    destruct items as [|item items]; [congruence|].
    destruct yes; unfold Qeq; cbn [Qnum Qden]; simpl length; lia.
Qed.

Lemma ascore_verdicts_boundary_witness :
  ascore_verdicts (PList (map verdict_record [("Yes", ∅); ("YES", ∅); ("yes", ∅)]))
  = Ok (Ratio (Z.of_nat 3) (Z.of_nat 3))
  /\ (exists q, score_value (Ratio (Z.of_nat 3) (Z.of_nat 3)) = Some q /\ (q == 1)%Q)
  /\ ascore_verdicts (PList []) = Ok NaN
  /\ isnan NaN = true
  /\ score_value NaN = None.
Proof.
  apply (ascore_verdicts_boundary [("Yes", ∅); ("YES", ∅); ("yes", ∅)] true).
  - discriminate.
  - repeat constructor.
Defined.

Example ascore_verdicts_all_no :
  ascore_verdicts (PList (map verdict_record [("No", ∅); ("no", ∅)]))
  = Ok (Ratio 0 2).
Proof. vm_compute. reflexivity. Qed.

Example ascore_verdicts_mixed :
  ascore_verdicts (PList (map verdict_record [("Yes", ∅); ("No", ∅); ("yes", ∅); ("NO", ∅)]))
  = Ok (Ratio 2 4).
Proof. vm_compute. reflexivity. Qed.

(** *** Further properties of the scoring step *)

Lemma verdict_value_cases (item : pyval) (v : pynum) :
  verdict_value item = Ok v -> v = PyInt 1 \/ v = PyInt 0 \/ v = PyNaN.
Proof.
  unfold verdict_value. destruct item as [| | | |l|d]; try discriminate.
  destruct (default (PStr "") (d !! "verdict")) as [| | |verdict| |]; try discriminate.
  rewrite verdict_score_map_lookup. intros [= <-].
  repeat case_decide; cbn [default]; auto.
Qed.

Lemma fold_verdicts_raise (output : list pyval) (e : exn) :
  fold_left (fun acc item =>
               let? a := acc in
               let? v := verdict_value item in
               Ok (py_add a v))
            output (Raise e)
  = Raise e.
Proof. induction output as [|item output IH]; [reflexivity|exact IH]. Qed.

Lemma fold_verdicts_bounds (output : list pyval) (a0 a : Z) :
  fold_left (fun acc item =>
               let? a := acc in
               let? v := verdict_value item in
               Ok (py_add a v))
            output (Ok (PyInt a0))
  = Ok (PyInt a) ->
  a0 <= a <= a0 + Z.of_nat (length output).
Proof.
  revert a0. induction output as [|item output IH]; intros a0.
  - intros [= <-]. simpl. lia.
  - cbn [fold_left bind]. destruct (verdict_value item) as [v|e] eqn:Ev; cbn [bind].
    + destruct (verdict_value_cases item v Ev) as [-> | [-> | ->]]; cbn [py_add].
      * intros H%IH. simpl length. lia.
      * intros H%IH. simpl length. lia.
      * clear IH Ev. intros H. exfalso. revert H.
        assert (Hnan : forall out, fold_left (fun acc item =>
                   let? a := acc in let? v := verdict_value item in Ok (py_add a v))
                   out (Ok PyNaN) <> Ok (PyInt a)).
        { induction out as [|it out IHout]; [discriminate|].
          cbn [fold_left bind]. destruct (verdict_value it) as [v'|e']; cbn [bind py_add].
          - exact IHout.
          - rewrite fold_verdicts_raise. discriminate. }
        apply Hnan.
    + rewrite fold_verdicts_raise. discriminate.
Qed.

(** Whatever value was loaded, a score that is returned is [nan] or a
    quotient [a / b] with [0 <= a <= b] and [b > 0]: a number between 0
    and 1. *)
Theorem ascore_verdicts_range (loaded : pyval) (s : score) :
  ascore_verdicts loaded = Ok s ->
  match s with
  | NaN => True
  | Ratio a b =>
      0 <= a <= b /\ 0 < b
      /\ exists q, score_value s = Some q /\ (0 <= q)%Q /\ (q <= 1)%Q
  end.
Proof.
  unfold ascore_verdicts.
  set (output := match loaded with PList l => l | _ => [] end).
  destruct (sum_verdicts output) as [total|e] eqn:Esum; cbn [bind]; [|discriminate].
  destruct (Z.eqb_spec (Z.of_nat (length output)) 0) as [Hz|Hnz].
  - intros [= <-]. exact I.
  - destruct total as [a|]; cbn [true_div]; intros [= <-]; [|exact I].
    apply fold_verdicts_bounds in Esum.
    assert (Hb : 0 < Z.of_nat (length output)) by lia.
    split; [lia|]. split; [exact Hb|].
    eexists. split; [reflexivity|].
    unfold Qle. cbn [Qnum Qden]. rewrite Z2Pos.id by exact Hb. lia.
Qed.

Lemma ascore_verdicts_range_witness :
  0 <= 1 <= 3 /\ 0 < 3
  /\ exists q, score_value (Ratio 1 3) = Some q /\ (0 <= q)%Q /\ (q <= 1)%Q.
Proof.
  apply (ascore_verdicts_range
           (PList (map verdict_record [("yes", ∅); ("no", ∅); ("No", ∅)])) (Ratio 1 3)).
  vm_compute. reflexivity.
Defined.

Lemma recognized_lower (items items' : list (string * gmap string pyval)) :
  map (fun item => lower item.1) items = map (fun item => lower item.1) items' ->
  forallb recognized (map fst items) = forallb recognized (map fst items')
  /\ count_yes (map fst items) = count_yes (map fst items')
  /\ length items = length items'.
Proof.
  revert items'. induction items as [|item items IH]; intros [|item' items'] Hmap;
    try discriminate.
  - repeat split.
  - cbn [map] in Hmap. injection Hmap as Hhead Htail.
    destruct (IH items' Htail) as [Hrec [Hcount Hlen]].
    cbn [map forallb length]. rewrite !count_yes_cons.
    unfold recognized at 1 3. unfold is_yes, is_no. cbn [fst]. rewrite Hhead.
    rewrite Hrec, Hcount, Hlen. repeat split.
Qed.

(** The score depends on the verdict texts only through their lowercase
    forms: two replies whose verdicts agree up to letter case, whatever
    their other entries, get the same score. *)
Theorem ascore_verdicts_case_insensitive (items items' : list (string * gmap string pyval)) :
  map (fun item => lower item.1) items = map (fun item => lower item.1) items' ->
  ascore_verdicts (PList (map verdict_record items))
  = ascore_verdicts (PList (map verdict_record items')).
Proof.
  intros Hmap. destruct (recognized_lower items items' Hmap) as [Hrec [Hcount Hlen]].
  rewrite !ascore_verdicts_records, Hrec, Hcount, Hlen.
  destruct items, items'; try discriminate; reflexivity.
Qed.

Lemma ascore_verdicts_case_insensitive_witness :
  ascore_verdicts (PList (map verdict_record [("YES", ∅); ("nO", {[ "reason" := PStr "r" ]})]))
  = ascore_verdicts (PList (map verdict_record [("yes", ∅); ("No", ∅)])).
Proof.
  apply (ascore_verdicts_case_insensitive
           [("YES", ∅); ("nO", {[ "reason" := PStr "r" ]})] [("yes", ∅); ("No", ∅)]).
  reflexivity.
Defined.

Lemma recognized_Permutation (verdicts verdicts' : list string) :
  verdicts ≡ₚ verdicts' ->
  forallb recognized verdicts = forallb recognized verdicts'
  /\ count_yes verdicts = count_yes verdicts'.
Proof.
  induction 1 as [|v vs vs' _ [IH1 IH2]|v v' vs|vs1 vs2 vs3 _ [IH1 IH2] _ [IH3 IH4]].
  - split; reflexivity.
  - cbn [forallb]. rewrite !count_yes_cons, IH1, IH2. split; reflexivity.
  - cbn [forallb]. rewrite !count_yes_cons.
    split; [|lia]. destruct (recognized v), (recognized v'); reflexivity.
  - split; congruence.
Qed.

(** The score does not depend on the order in which the verdicts are
    returned. *)
Theorem ascore_verdicts_order (items items' : list (string * gmap string pyval)) :
  items ≡ₚ items' ->
  ascore_verdicts (PList (map verdict_record items))
  = ascore_verdicts (PList (map verdict_record items')).
Proof.
  intros Hperm. rewrite !ascore_verdicts_records.
  assert (Hfst : map fst items ≡ₚ map fst items') by (apply fmap_Permutation; exact Hperm).
  destruct (recognized_Permutation _ _ Hfst) as [Hrec Hcount].
  rewrite Hrec, Hcount, (Permutation_length Hperm).
  destruct items, items'; try reflexivity.
  - apply Permutation_nil_l in Hperm. discriminate.
  - symmetry in Hperm. apply Permutation_nil_l in Hperm. discriminate.
Qed.

Lemma ascore_verdicts_order_witness :
  ascore_verdicts (PList (map verdict_record [("yes", ∅); ("no", ∅)]))
  = ascore_verdicts (PList (map verdict_record [("no", ∅); ("yes", ∅)])).
Proof.
  apply (ascore_verdicts_order [("yes", ∅); ("no", ∅)] [("no", ∅); ("yes", ∅)]).
  apply Permutation_swap.
Defined.

(** An item the generator can score: a dict whose ["verdict"], if any, is
    a string. *)
Definition scorable (item : pyval) : Prop :=
  match item with
  | PDict d =>
      match default (PStr "") (d !! "verdict") with
      | PStr _ => True
      | _ => False
      end
  | _ => False
  end.

Lemma verdict_value_ok_iff (item : pyval) :
  is_ok (verdict_value item) = true <-> scorable item.
Proof.
  unfold verdict_value, scorable. destruct item as [| | | |l|d];
    try (split; [discriminate|contradiction]).
  destruct (default (PStr "") (d !! "verdict")) as [| | |v| |];
    try (split; [discriminate|contradiction]).
  split; [intros _; exact I|reflexivity].
Qed.

Lemma fold_verdicts_ok_iff (output : list pyval) (acc : pynum) :
  is_ok (fold_left (fun acc item =>
                      let? a := acc in
                      let? v := verdict_value item in
                      Ok (py_add a v))
                   output (Ok acc)) = true
  <-> Forall scorable output.
Proof.
  revert acc. induction output as [|item output IH]; intros acc.
  - split; [constructor|reflexivity].
  - cbn [fold_left bind]. pose proof (verdict_value_ok_iff item) as Hitem.
    destruct (verdict_value item) as [v|e]; cbn [bind].
    + rewrite IH. split.
      * intros Hall. constructor; [apply Hitem; reflexivity|exact Hall].
      * intros Hall. inversion Hall; assumption.
    + rewrite fold_verdicts_raise. split; [discriminate|].
      intros Hall. inversion Hall as [|? ? Hs _]; subst.
      apply Hitem in Hs. discriminate.
Qed.

(** Scoring a list raises exactly when some item is not a dict or has a
    verdict that is not a string; a single such item anywhere in the
    reply loses the score of the whole row. *)
Theorem ascore_verdicts_ok_iff (output : list pyval) :
  is_ok (ascore_verdicts (PList output)) = true <-> Forall scorable output.
Proof.
  unfold ascore_verdicts. rewrite <- (fold_verdicts_ok_iff output (PyInt 0)).
  fold (sum_verdicts output).
  destruct (sum_verdicts output) as [total|e]; cbn [bind]; [|reflexivity].
  destruct (Z.of_nat (length output) =? 0); split; reflexivity.
Qed.

(** *** The statements handed to the verification prompt *)

Definition newline : string := String "010" EmptyString.

(** Line 157 for a list of statement texts: an empty extraction is
    replaced by the single statement ["Nil"]. *)
Definition statements_or_nil (statements : list string) : list string :=
  match statements with
  | [] => ["Nil"]
  | _ :: _ => statements
  end.

(** [f"statement_{i+1}: {st}"] *)
Definition statement_line (i : nat) (st : string) : string :=
  "statement_" +:+ pretty (i + 1)%nat +:+ ": " +:+ st.

(** Lines 158-160: the statements, numbered from 1, joined by newlines. *)
Definition statements_str (statements : list string) : string :=
  String.concat newline (imap statement_line statements).

(** The block of statements in the verification prompt (lines 157-160). *)
Definition verification_statements (statements : list string) : string :=
  statements_str (statements_or_nil statements).


Example verification_statements_two :
  verification_statements ["Paris is in France."; "It is the capital."]
  = "statement_1: Paris is in France." +:+ newline +:+ "statement_2: It is the capital.".
Proof. vm_compute. reflexivity. Qed.

End Faithfulness.

(** ** ragas/metrics/_context_recall.py *)

Module ContextRecall.

(** [ContextRecallClassificationAnswer] (lines 24-37). *)
Record ContextRecallClassificationAnswer : Type := mkAnswer {
  statement : string;
  attributed : bool;
  reason : string
}.

(** The warnings [_compute_score] hands to the logger: the two of the
    [except] branch (lines 142-143) and the one for a [nan] score
    (lines 158-160). *)
Inductive warning : Type :=
| CouldNotParse (response : pyval)
| ParseError (err : string)
| NoValidClassification.

Section ComputeScore.

(** [ContextRecallClassificationAnswers.parse_obj]: pydantic's validation
    of a value against the list-of-answers schema.  It returns the
    validated answers ([__root__]) or raises, [ValidationError] when the
    value does not fit the schema. *)
Variable parse_obj : pyval -> result (list ContextRecallClassificationAnswer).

(** Lines 136-137: a dict with a ["classification"] entry is replaced by
    that entry. *)
Definition unwrap_classification (response : pyval) : pyval :=
  match response with
  | PDict d =>
      match d !! "classification" with
      | Some classification => classification
      | None => response
      end
  | _ => response
  end.

(** [ContextRecall._compute_score] (lines 135-162), with the logger's
    record of warnings threaded through. *)
Definition _compute_score (response : pyval) (log : list warning)
  : result score * list warning :=
  let response := unwrap_classification response in
  match parse_obj response with
  | Raise (ValidationError err) =>
      (Ok NaN, log ++ [CouldNotParse response; ParseError err])
  | Raise e => (Raise e, log)
  | Ok root =>
      let response := map (fun item => if attributed item then 1 else 0) root in
      let denom := Z.of_nat (length response) in
      let numerator := fold_left Z.add response 0 in
      let score := if 0 <? denom then Ratio numerator denom else NaN in
      if isnan score
      then (Ok score, log ++ [NoValidClassification])
      else (Ok score, log)
  end.

End ComputeScore.

(** The number of answers classified as attributed. *)
Definition count_attributed (answers : list ContextRecallClassificationAnswer) : Z :=
  Z.of_nat (length (filter (fun a => attributed a = true) answers)).

(** A validator for the values that fit the schema as they are: a list
    of dicts with a string ["statement"], a boolean ["attributed"] and a
    string ["reason"].  It instantiates [parse_obj] in the examples. *)
Definition parse_answer (item : pyval) : result ContextRecallClassificationAnswer :=
  match item with
  | PDict d =>
      match d !! "statement", d !! "attributed", d !! "reason" with
      | Some (PStr s), Some (PBool a), Some (PStr r) =>
          Ok {| statement := s; attributed := a; reason := r |}
      | _, _, _ => Raise (ValidationError "field required or of the wrong type")
      end
  | _ => Raise (ValidationError "value is not a valid dict")
  end.

Fixpoint parse_answers (items : list pyval) : result (list ContextRecallClassificationAnswer) :=
  match items with
  | [] => Ok []
  | item :: rest =>
      let? a := parse_answer item in
      let? tl := parse_answers rest in
      Ok (a :: tl)
  end.

Definition parse_obj_strict (obj : pyval) : result (list ContextRecallClassificationAnswer) :=
  match obj with
  | PList items => parse_answers items
  | _ => Raise (ValidationError "value is not a valid list")
  end.

Definition classified (s : string) (a : bool) : pyval :=
  PDict {[ "statement" := PStr s; "attributed" := PBool a; "reason" := PStr "r" ]}.

(** *** Lemmas *)

Lemma sum_indicators (answers : list ContextRecallClassificationAnswer) (acc : Z) :
  fold_left Z.add (map (fun item => if attributed item then 1 else 0) answers) acc
  = acc + count_attributed answers.
Proof.
  revert acc. induction answers as [|a answers IH]; intros acc.
  - unfold count_attributed. simpl. lia.
  - cbn [map fold_left]. rewrite IH. unfold count_attributed.
    rewrite filter_cons. destruct (attributed a).
    + rewrite decide_True by reflexivity. simpl length. lia.
    + rewrite decide_False by discriminate. lia.
Qed.

(** C7.  When the (unwrapped) response validates to a non-empty list of
    classifications, the score is the number of items with
    [attributed = true] divided by the number of items, and nothing is
    logged; when it validates to the empty list the score is [nan] (with
    a warning); and when validation fails the method logs the two
    warnings and returns [nan]: it does not raise. *)
Theorem compute_score_spec
    (parse_obj : pyval -> result (list ContextRecallClassificationAnswer))
    (response : pyval) (log : list warning) :
  (forall answers,
      parse_obj (unwrap_classification response) = Ok answers ->
      answers <> [] ->
      _compute_score parse_obj response log
      = (Ok (Ratio (count_attributed answers) (Z.of_nat (length answers))), log))
  /\ (parse_obj (unwrap_classification response) = Ok [] ->
      _compute_score parse_obj response log = (Ok NaN, log ++ [NoValidClassification]))
  /\ (forall err,
      parse_obj (unwrap_classification response) = Raise (ValidationError err) ->
      _compute_score parse_obj response log
      = (Ok NaN, log ++ [CouldNotParse (unwrap_classification response); ParseError err])).
Proof.
  split; [|split].
  - intros answers Hparse Hne. unfold _compute_score. rewrite Hparse.
    rewrite length_map, sum_indicators.
    destruct answers as [|a answers]; [congruence|].
    replace (0 <? Z.of_nat (length (a :: answers))) with true
      by (symmetry; apply Z.ltb_lt; simpl length; lia).
    reflexivity.
  - intros Hparse. unfold _compute_score. rewrite Hparse. reflexivity.
  - intros err Hparse. unfold _compute_score. rewrite Hparse. reflexivity.
Qed.

(** Four classified statements, three of them attributed: 3/4 = 0.75;
    they may come wrapped under ["classification"].  An empty list and a
    value that is not a list give [nan] and the warnings. *)
Definition four_statements : pyval :=
  PList [classified "a" true; classified "b" true; classified "c" false; classified "d" true].

Lemma compute_score_spec_witness :
  _compute_score parse_obj_strict (PDict {[ "classification" := four_statements ]}) []
  = (Ok (Ratio 3 4), [])
  /\ _compute_score parse_obj_strict (PList []) [] = (Ok NaN, [NoValidClassification])
  /\ _compute_score parse_obj_strict (PStr "no json") []
     = (Ok NaN, [CouldNotParse (PStr "no json"); ParseError "value is not a valid list"]).
Proof.
  split; [|split].
  - refine (proj1 (compute_score_spec parse_obj_strict
                     (PDict {[ "classification" := four_statements ]}) [])
                  [mkAnswer "a" true "r"; mkAnswer "b" true "r";
                   mkAnswer "c" false "r"; mkAnswer "d" true "r"] _ _).
    + vm_compute. reflexivity.
    + discriminate.
  - apply (proj1 (proj2 (compute_score_spec parse_obj_strict (PList []) []))).
    reflexivity.
  - apply (proj2 (proj2 (compute_score_spec parse_obj_strict (PStr "no json") []))).
    reflexivity.
Defined.

Example context_recall_three_of_four :
  score_value (Ratio 3 4) = Some (3 # 4)%Q /\ (3 # 4 == 75 # 100)%Q.
Proof. split; reflexivity. Qed.

(** *** Further properties of [_compute_score] *)

Lemma count_attributed_bounds (answers : list ContextRecallClassificationAnswer) :
  0 <= count_attributed answers <= Z.of_nat (length answers).
Proof.
  unfold count_attributed. split; [lia|].
  apply inj_le, length_filter.
Qed.

(** Whatever the validator accepts, a score that is returned is [nan] or
    a quotient [a / b] with [0 <= a <= b] and [b > 0]: a number between
    0 and 1. *)
Theorem compute_score_range
    (parse_obj : pyval -> result (list ContextRecallClassificationAnswer))
    (response : pyval) (log log' : list warning) (s : score) :
  _compute_score parse_obj response log = (Ok s, log') ->
  match s with
  | NaN => True
  | Ratio a b =>
      0 <= a <= b /\ 0 < b
      /\ exists q, score_value s = Some q /\ (0 <= q)%Q /\ (q <= 1)%Q
  end.
Proof.
  unfold _compute_score.
  destruct (parse_obj (unwrap_classification response)) as [root|e].
  - rewrite length_map, sum_indicators.
    pose proof (count_attributed_bounds root) as Hc.
    destruct (Z.ltb_spec 0 (Z.of_nat (length root))) as [Hpos|Hzero]; cbn [isnan].
    + intros [= <- _]. split; [lia|]. split; [exact Hpos|].
      eexists. split; [reflexivity|].
      unfold Qle. cbn [Qnum Qden]. rewrite Z2Pos.id by exact Hpos. lia.
    + intros [= <- _]. exact I.
  - destruct e; try discriminate. intros [= <- _]. exact I.
Qed.

Lemma compute_score_range_witness :
  0 <= 3 <= 4 /\ 0 < 4
  /\ exists q, score_value (Ratio 3 4) = Some q /\ (0 <= q)%Q /\ (q <= 1)%Q.
Proof.
  apply (compute_score_range parse_obj_strict four_statements [] [] (Ratio 3 4)).
  vm_compute. reflexivity.
Defined.

(** The log only grows, by at most two warnings; and when a score is
    returned, a warning was logged exactly when the score is [nan]: no
    undefined score goes unreported and no defined score is reported. *)
Theorem compute_score_warns_iff_nan
    (parse_obj : pyval -> result (list ContextRecallClassificationAnswer))
    (response : pyval) (log : list warning) :
  exists ws,
    snd (_compute_score parse_obj response log) = log ++ ws
    /\ (length ws <= 2)%nat
    /\ (forall s, fst (_compute_score parse_obj response log) = Ok s ->
                  (isnan s = true <-> ws <> []))
    /\ (forall e, fst (_compute_score parse_obj response log) = Raise e -> ws = []).
Proof.
  unfold _compute_score.
  destruct (parse_obj (unwrap_classification response)) as [root|e].
  - destruct (Z.ltb_spec 0 (Z.of_nat (length
               (map (fun item => if attributed item then 1 else 0) root)))) as [Hpos|Hzero];
      cbn [isnan].
    + exists []. cbn [fst snd]. rewrite app_nil_r.
      split; [reflexivity|]. split; [simpl; lia|].
      split; [|discriminate].
      intros s [= <-]. cbn [isnan]. split; [discriminate|congruence].
    + exists [NoValidClassification]. cbn [fst snd].
      split; [reflexivity|]. split; [simpl; lia|].
      split; [|discriminate].
      intros s [= <-]. cbn [isnan]. split; [discriminate|reflexivity].
  - destruct e as [msg|err|key| |attr|msg|last|code];
      try (exists []; cbn [fst snd]; rewrite app_nil_r;
           split; [reflexivity|]; split; [simpl; lia|];
           split; [discriminate|reflexivity]).
    eexists. cbn [fst snd]. split; [reflexivity|]. split; [simpl; lia|].
    split; [|discriminate].
    intros s [= <-]. cbn [isnan]. split; [discriminate|reflexivity].
Qed.

(** A response wrapped in a dict under ["classification"] is scored as
    the bare response is, whatever else the dict holds, when the bare
    response is not itself such a wrapper. *)
Theorem compute_score_wrapped
    (parse_obj : pyval -> result (list ContextRecallClassificationAnswer))
    (classification : pyval) (others : gmap string pyval) (log : list warning) :
  unwrap_classification classification = classification ->
  _compute_score parse_obj (PDict (<["classification" := classification]> others)) log
  = _compute_score parse_obj classification log.
Proof.
  intros Hbare. unfold _compute_score.
  replace (unwrap_classification (PDict (<["classification" := classification]> others)))
    with classification
    by (unfold unwrap_classification; rewrite lookup_insert_eq; reflexivity).
  rewrite Hbare. reflexivity.
Qed.

Lemma compute_score_wrapped_witness :
  _compute_score parse_obj_strict
    (PDict (<["classification" := four_statements]> {[ "note" := PStr "n" ]})) []
  = _compute_score parse_obj_strict four_statements [].
Proof.
  apply (compute_score_wrapped parse_obj_strict four_statements {[ "note" := PStr "n" ]} []).
  reflexivity.
Defined.

End ContextRecall.

(** ** ragas/langchain/evalchain.py *)

Module EvalChain.

(** The values found in example and prediction dicts: strings, lists, and
    langchain documents, which carry a [page_content] attribute. *)
Inductive value : Type :=
| VNone
| VInt (z : Z)
| VStr (s : string)
| VDocument (page_content : string)
| VList (items : list value).

(** The three columns handed to [Dataset.from_dict] (lines 123-125). *)
Record columns : Type := mkColumns {
  question : list value;
  answer : list value;
  contexts : list (list string)
}.

Definition dquote : string := String "034" EmptyString.

(** [for d in v]: the items of a list, the characters of a string; other
    values are not iterable. *)
Definition iterate (v : value) : result (list value) :=
  match v with
  | VList items => Ok items
  | VStr s => Ok (map (fun c => VStr (String c EmptyString)) (String.list_ascii_of_string s))
  | _ => Raise (TypeError "object is not iterable")
  end.

(** [d.page_content] *)
Definition get_page_content (d : value) : result string :=
  match d with
  | VDocument c => Ok c
  | _ => Raise (AttributeError "page_content")
  end.

Fixpoint page_contents (docs : list value) : result (list string) :=
  match docs with
  | [] => Ok []
  | d :: rest =>
      let? c := get_page_content d in
      let? tl := page_contents rest in
      Ok (c :: tl)
  end.

(** [d[key]] *)
Definition getitem (d : gmap string value) (key : string) : result value :=
  match d !! key with
  | Some v => Ok v
  | None => Raise (KeyError key)
  end.

(** [predictions[i]] *)
Definition index {A : Type} (l : list A) (i : nat) : result A :=
  match l !! i with
  | Some x => Ok x
  | None => Raise IndexError
  end.

Section Evaluate.

(** [ragas.metrics.base.EvaluationMode] and
    [ragas.validation.EVALMODE_TO_COLUMNS] are not part of the sources at
    hand: the modes are any type with the two members the chain names,
    and the table is any assignment of required columns to modes. *)
Context {EvaluationMode : Type} `{EqDecision EvaluationMode}.
Variables (qac qc : EvaluationMode).
Variable EVALMODE_TO_COLUMNS : EvaluationMode -> list string.

(** The datasets library and the metric: [Dataset.from_dict] builds the
    dataset or raises; [metric.score] runs the model over it and returns
    the column of scores or raises. *)
Context {Dataset Score : Type}.
Variable Dataset_from_dict : columns -> result Dataset.

Record Metric : Type := mkMetric {
  name : string;
  evaluation_mode : EvaluationMode;
  score_ : Dataset -> result (list Score)
}.

Variable metric : Metric.

(** [RagasEvaluatorChain._validate] (lines 68-92). *)
Definition _validate (input : gmap string value)
    (question_key prediction_key context_key : string) : result unit :=
  let required_columns := EVALMODE_TO_COLUMNS (evaluation_mode metric) in
  if bool_decide ("question" ∈ required_columns)
     && negb (bool_decide (is_Some (input !! question_key)))
  then Raise (ValueError (dquote +:+ question_key +:+ dquote
                +:+ " is required in each example"
                +:+ "for the metric[" +:+ name metric +:+ "] you have chosen."))
  else if bool_decide ("answer" ∈ required_columns)
          && negb (bool_decide (is_Some (input !! prediction_key)))
  then Raise (ValueError (dquote +:+ prediction_key +:+ dquote
                +:+ " is required in each prediction"
                +:+ "for the metric[" +:+ name metric +:+ "] you have chosen."))
  else if bool_decide ("contexts" ∈ required_columns)
          && negb (bool_decide (is_Some (input !! context_key)))
  then Raise (ValueError (dquote +:+ context_key +:+ dquote
                +:+ " is required in each prediction for the "
                +:+ "metric[" +:+ name metric +:+ "] you have chosen."))
  else Ok tt.

(** One round of the loop of lines 114-122 for the [i]-th example;
    [{**example, **prediction}] lets the prediction's entries win. *)
Definition evaluate_row (predictions : list (gmap string value))
    (question_key prediction_key context_key : string)
    (i : nat) (example : gmap string value) (acc : columns) : result columns :=
  let? prediction := index predictions i in
  let? _ := _validate (prediction ∪ example) question_key prediction_key context_key in
  let? q := getitem example question_key in
  let? prediction := index predictions i in
  let? a := getitem prediction prediction_key in
  if bool_decide (evaluation_mode metric = qac) || bool_decide (evaluation_mode metric = qc)
  then
    let? prediction := index predictions i in
    let? docs := getitem prediction context_key in
    let? docs := iterate docs in
    let? c := page_contents docs in
    Ok {| question := question acc ++ [q]; answer := answer acc ++ [a];
          contexts := contexts acc ++ [c] |}
  else
    Ok {| question := question acc ++ [q]; answer := answer acc ++ [a];
          contexts := contexts acc |}.

Fixpoint evaluate_rows (predictions : list (gmap string value))
    (question_key prediction_key context_key : string)
    (i : nat) (examples : list (gmap string value)) (acc : columns) : result columns :=
  match examples with
  | [] => Ok acc
  | example :: rest =>
      let? acc' := evaluate_row predictions question_key prediction_key context_key
                     i example acc in
      evaluate_rows predictions question_key prediction_key context_key (S i) rest acc'
  end.

Definition length_mismatch (examples predictions : list (gmap string value)) : exn :=
  ValueError ("number of examples and predictions must be same. Got "
              +:+ "len(examples)=" +:+ pretty (length examples)
              +:+ " and len(predictions)=" +:+ pretty (length predictions)).

(** [RagasEvaluatorChain.evaluate] (lines 94-133).  The state threaded
    through is the list of datasets the metric's model has been run on. *)
Definition evaluate (examples predictions : list (gmap string value))
    (question_key prediction_key context_key : string)
    (model_calls : list Dataset)
  : result (list (gmap string Score)) * list Dataset :=
  if negb (bool_decide (length examples = length predictions))
  then (Raise (length_mismatch examples predictions), model_calls)
  else
    match evaluate_rows predictions question_key prediction_key context_key
            0 examples {| question := []; answer := []; contexts := [] |} with
    | Raise e => (Raise e, model_calls)
    | Ok cols =>
        match Dataset_from_dict cols with
        | Raise e => (Raise e, model_calls)
        | Ok dataset =>
            match score_ metric dataset with
            | Raise e => (Raise e, model_calls ++ [dataset])
            | Ok column =>
                (Ok (map (fun s => {[ name metric +:+ "_score" := s ]}) column),
                 model_calls ++ [dataset])
            end
        end
    end.

(** C9.  When the numbers of examples and predictions differ, [evaluate]
    raises the [ValueError] of line 109 and the metric's model has not
    been run: the list of model calls is as before. *)
Theorem evaluate_length_mismatch (examples predictions : list (gmap string value))
    (question_key prediction_key context_key : string) (model_calls : list Dataset) :
  length examples <> length predictions ->
  evaluate examples predictions question_key prediction_key context_key model_calls
  = (Raise (length_mismatch examples predictions), model_calls).
Proof.
  intros Hlen. unfold evaluate.
  rewrite bool_decide_eq_false_2 by exact Hlen. reflexivity.
Qed.

(** *** Further properties of the evaluator chain *)

(** [_validate] accepts an input exactly when the key of every required
    column is present; what it raises is a [ValueError]. *)
Theorem validate_ok_iff (input : gmap string value)
    (question_key prediction_key context_key : string) :
  (_validate input question_key prediction_key context_key = Ok tt
   <-> (("question" ∈ EVALMODE_TO_COLUMNS (evaluation_mode metric)
         -> is_Some (input !! question_key))
        /\ ("answer" ∈ EVALMODE_TO_COLUMNS (evaluation_mode metric)
            -> is_Some (input !! prediction_key))
        /\ ("contexts" ∈ EVALMODE_TO_COLUMNS (evaluation_mode metric)
            -> is_Some (input !! context_key))))
  /\ (forall e, _validate input question_key prediction_key context_key = Raise e ->
                exists msg, e = ValueError msg).
Proof.
  unfold _validate.
  set (req := EVALMODE_TO_COLUMNS (evaluation_mode metric)).
  destruct (bool_decide ("question" ∈ req)) eqn:Eq1;
    destruct (bool_decide (is_Some (input !! question_key))) eqn:Eq2;
    destruct (bool_decide ("answer" ∈ req)) eqn:Ea1;
    destruct (bool_decide (is_Some (input !! prediction_key))) eqn:Ea2;
    destruct (bool_decide ("contexts" ∈ req)) eqn:Ec1;
    destruct (bool_decide (is_Some (input !! context_key))) eqn:Ec2;
    cbn [andb negb];
    repeat match goal with
           | H : bool_decide _ = true |- _ => apply bool_decide_eq_true in H
           | H : bool_decide _ = false |- _ => apply bool_decide_eq_false in H
           end;
    (split; [split; [try discriminate; tauto | try reflexivity; tauto]
            | intros e He; try discriminate He; injection He as <-; eauto]).
Qed.

Lemma evaluate_row_shape (predictions : list (gmap string value))
    (question_key prediction_key context_key : string)
    (i : nat) (example : gmap string value) (acc cols : columns) :
  evaluate_row predictions question_key prediction_key context_key i example acc = Ok cols ->
  length (question cols) = S (length (question acc))
  /\ length (answer cols) = S (length (answer acc))
  /\ length (contexts cols)
     = (length (contexts acc)
        + if bool_decide (evaluation_mode metric = qac)
             || bool_decide (evaluation_mode metric = qc) then 1 else 0)%nat.
Proof.
  unfold evaluate_row.
  destruct (index predictions i) as [prediction|]; cbn [bind]; [|discriminate].
  destruct (_validate _ _ _ _); cbn [bind]; [|discriminate].
  destruct (getitem example question_key); cbn [bind]; [|discriminate].
  destruct (getitem prediction prediction_key); cbn [bind]; [|discriminate].
  destruct (bool_decide (evaluation_mode metric = qac)
            || bool_decide (evaluation_mode metric = qc)).
  - destruct (getitem prediction context_key) as [docs|]; cbn [bind]; [|discriminate].
    destruct (iterate docs) as [ds|]; cbn [bind]; [|discriminate].
    destruct (page_contents ds); cbn [bind]; [|discriminate].
    intros [= <-]. cbn [question answer contexts]. rewrite !length_app. simpl. lia.
  - intros [= <-]. cbn [question answer contexts]. rewrite !length_app. simpl. lia.
Qed.

(** The columns built from the rows: one question and one answer per
    example, and one list of contexts per example when the metric's mode
    is [qac] or [qc], none otherwise. *)
Theorem evaluate_rows_shape (predictions examples : list (gmap string value))
    (question_key prediction_key context_key : string) (i : nat) (acc cols : columns) :
  evaluate_rows predictions question_key prediction_key context_key i examples acc = Ok cols ->
  length (question cols) = (length (question acc) + length examples)%nat
  /\ length (answer cols) = (length (answer acc) + length examples)%nat
  /\ length (contexts cols)
     = (length (contexts acc)
        + if bool_decide (evaluation_mode metric = qac)
             || bool_decide (evaluation_mode metric = qc)
          then length examples else 0)%nat.
Proof.
  revert i acc. induction examples as [|example rest IH]; intros i acc.
  - intros [= <-]. cbn [length]. repeat split; try lia.
    destruct (_ || _); lia.
  - cbn [evaluate_rows].
    destruct (evaluate_row predictions question_key prediction_key context_key
                i example acc) as [acc'|] eqn:Erow; cbn [bind]; [|discriminate].
    intros Hrest. apply IH in Hrest. apply evaluate_row_shape in Erow.
    destruct Hrest as [Hq [Ha Hc]], Erow as [Hq' [Ha' Hc']].
    cbn [length]. repeat split; try lia.
    rewrite Hc, Hc'. destruct (_ || _); lia.
Qed.

Lemma evaluate_rows_invalid (predictions : list (gmap string value))
    (question_key prediction_key context_key : string)
    (example prediction : gmap string value) (e : exn) :
  _validate (prediction ∪ example) question_key prediction_key context_key = Raise e ->
  forall examples k i acc,
    examples !! k = Some example ->
    predictions !! (i + k)%nat = Some prediction ->
    exists e', evaluate_rows predictions question_key prediction_key context_key
                 i examples acc = Raise e'.
Proof.
  intros Hinvalid. induction examples as [|first rest IH]; intros k i acc Hex Hpr.
  - discriminate.
  - cbn [evaluate_rows]. destruct k as [|k].
    + injection Hex as ->. rewrite Nat.add_0_r in Hpr.
      unfold evaluate_row, index. rewrite Hpr. cbn [bind]. rewrite Hinvalid.
      cbn [bind]. eauto.
    + destruct (evaluate_row _ _ _ _ i first acc) as [acc'|e0]; cbn [bind]; [|eauto].
      apply (IH k (S i) acc'); [exact Hex|].
      replace (S i + k)%nat with (i + S k)%nat by lia. exact Hpr.
Qed.

(** When some row, be it the last, misses a required key, [evaluate]
    raises and the metric's model has not been run on any row. *)
Theorem evaluate_invalid_row (examples predictions : list (gmap string value))
    (question_key prediction_key context_key : string) (model_calls : list Dataset)
    (k : nat) (example prediction : gmap string value) (e : exn) :
  examples !! k = Some example ->
  predictions !! k = Some prediction ->
  _validate (prediction ∪ example) question_key prediction_key context_key = Raise e ->
  exists e',
    evaluate examples predictions question_key prediction_key context_key model_calls
    = (Raise e', model_calls).
Proof.
  intros Hex Hpr Hinvalid. unfold evaluate.
  destruct (negb (bool_decide (length examples = length predictions))); [eauto|].
  destruct (evaluate_rows_invalid predictions question_key prediction_key context_key
              example prediction e Hinvalid examples k 0%nat
              {| question := []; answer := []; contexts := [] |} Hex Hpr) as [e' He'].
  rewrite He'. eauto.
Qed.

(** [evaluate] runs the metric at most once: either it raises before any
    model call, or every row was read into the columns, the dataset was
    built from them, and the metric was run once on that dataset; the
    result then has one score dict per score of the metric. *)
Theorem evaluate_model_calls (examples predictions : list (gmap string value))
    (question_key prediction_key context_key : string) (model_calls : list Dataset) :
  (exists e,
      evaluate examples predictions question_key prediction_key context_key model_calls
      = (Raise e, model_calls))
  \/ (exists cols dataset,
        length examples = length predictions
        /\ evaluate_rows predictions question_key prediction_key context_key 0 examples
             {| question := []; answer := []; contexts := [] |} = Ok cols
        /\ Dataset_from_dict cols = Ok dataset
        /\ snd (evaluate examples predictions question_key prediction_key context_key
                  model_calls) = model_calls ++ [dataset]
        /\ forall scores,
             fst (evaluate examples predictions question_key prediction_key context_key
                    model_calls) = Ok scores ->
             exists column, score_ metric dataset = Ok column
                            /\ length scores = length column
                            /\ Forall2 (fun d s => d = {[ name metric +:+ "_score" := s ]})
                                 scores column).
Proof.
  unfold evaluate.
  destruct (decide (length examples = length predictions)) as [Hlen|Hlen].
  - rewrite bool_decide_eq_true_2 by exact Hlen. cbn [negb].
    destruct (evaluate_rows _ _ _ _ _ _ _) as [cols|e]; [|left; eauto].
    destruct (Dataset_from_dict cols) as [dataset|e] eqn:Ed; [|left; eauto].
    right. exists cols, dataset.
    split; [exact Hlen|]. split; [reflexivity|]. split; [exact Ed|].
    destruct (score_ metric dataset) as [column|e]; cbn [fst snd].
    + split; [reflexivity|]. intros scores [= <-]. exists column.
      split; [reflexivity|]. split; [apply length_map|].
      apply Forall2_fmap_l, Forall_Forall2_diag, Forall_forall. reflexivity.
    + split; [reflexivity|]. discriminate.
  - rewrite bool_decide_eq_false_2 by exact Hlen. left. eauto.
Qed.

(** The merged dict is what is validated, but the question is read from
    the example alone: when the question key is present only in the
    prediction, the first row passes validation and [evaluate] raises
    [KeyError] for that key, before any model call. *)
Theorem evaluate_question_only_in_prediction
    (example prediction : gmap string value) (examples predictions : list (gmap string value))
    (question_key prediction_key context_key : string) (model_calls : list Dataset) :
  length examples = length predictions ->
  example !! question_key = None ->
  _validate (prediction ∪ example) question_key prediction_key context_key = Ok tt ->
  evaluate (example :: examples) (prediction :: predictions)
    question_key prediction_key context_key model_calls
  = (Raise (KeyError question_key), model_calls).
Proof.
  intros Hlen Hmissing Hvalid. unfold evaluate.
  rewrite bool_decide_eq_true_2 by (simpl; congruence). cbn [negb evaluate_rows].
  unfold evaluate_row, index. cbn [lookup list_lookup bind]. rewrite Hvalid. cbn [bind].
  unfold getitem at 1. rewrite Hmissing. reflexivity.
Qed.

End Evaluate.

(** *** Instances *)

Inductive mode : Type := qac | qa | qc.

#[global] Instance mode_eq_dec : EqDecision mode.
Proof. solve_decision. Defined.

Definition columns_of (m : mode) : list string :=
  match m with
  | qac => ["question"; "answer"; "contexts"]
  | qa => ["question"; "answer"]
  | qc => ["question"; "contexts"]
  end.

(** A metric that scores every row 1, over datasets that are their
    columns. *)
Definition constant_metric : @Metric mode columns Z :=
  {| name := "faithfulness"; evaluation_mode := qac;
     score_ := fun d => Ok (map (fun _ => 1) (question d)) |}.

Definition example_row (q : string) : gmap string value := {[ "query" := VStr q ]}.

Definition prediction_row (a : string) : gmap string value :=
  {[ "result" := VStr a; "source_documents" := VList [VDocument "ctx"] ]}.

Definition five_examples : list (gmap string value) :=
  map example_row ["q1"; "q2"; "q3"; "q4"; "q5"].

Definition four_predictions : list (gmap string value) :=
  map prediction_row ["a1"; "a2"; "a3"; "a4"].

Lemma evaluate_length_mismatch_witness :
  evaluate qac qc columns_of Ok constant_metric five_examples four_predictions
    "query" "result" "source_documents" []
  = (Raise (length_mismatch five_examples four_predictions), []).
Proof.
  apply (evaluate_length_mismatch qac qc columns_of Ok constant_metric
           five_examples four_predictions "query" "result" "source_documents" []).
  simpl. lia.
Defined.

Example evaluate_five_four_message :
  length_mismatch five_examples four_predictions
  = ValueError "number of examples and predictions must be same. Got len(examples)=5 and len(predictions)=4".
Proof. vm_compute. reflexivity. Qed.

(** With as many predictions as examples the rows are validated and the
    metric is run once. *)
Example evaluate_two_rows :
  evaluate qac qc columns_of Ok constant_metric
    (map example_row ["q1"; "q2"]) (map prediction_row ["a1"; "a2"])
    "query" "result" "source_documents" []
  = (Ok [{[ "faithfulness_score" := 1 ]}; {[ "faithfulness_score" := 1 ]}],
     [{| question := [VStr "q1"; VStr "q2"]; answer := [VStr "a1"; VStr "a2"];
         contexts := [["ctx"]; ["ctx"]] |}]).
Proof. vm_compute. reflexivity. Qed.

Example evaluate_missing_query :
  fst (evaluate qac qc columns_of Ok constant_metric
         [∅] (map prediction_row ["a1"]) "query" "result" "source_documents" [])
  = Raise (ValueError (dquote +:+ "query" +:+ dquote
             +:+ " is required in each examplefor the metric[faithfulness] you have chosen.")).
Proof. vm_compute. reflexivity. Qed.

(** *** Further instances *)

Lemma evaluate_rows_shape_witness :
  length (question {| question := [VStr "q1"; VStr "q2"]; answer := [VStr "a1"; VStr "a2"];
                      contexts := [["ctx"]; ["ctx"]] |})
  = (length (question {| question := []; answer := []; contexts := [] |}) + 2)%nat
  /\ length (answer {| question := [VStr "q1"; VStr "q2"]; answer := [VStr "a1"; VStr "a2"];
                       contexts := [["ctx"]; ["ctx"]] |})
     = (length (answer {| question := []; answer := []; contexts := [] |}) + 2)%nat
  /\ length (contexts {| question := [VStr "q1"; VStr "q2"]; answer := [VStr "a1"; VStr "a2"];
                         contexts := [["ctx"]; ["ctx"]] |})
     = (length (contexts {| question := []; answer := []; contexts := [] |})
        + if bool_decide (evaluation_mode constant_metric = qac)
             || bool_decide (evaluation_mode constant_metric = qc)
          then 2 else 0)%nat.
Proof.
  apply (evaluate_rows_shape qac qc columns_of constant_metric
           (map prediction_row ["a1"; "a2"]) (map example_row ["q1"; "q2"])
           "query" "result" "source_documents" 0
           {| question := []; answer := []; contexts := [] |}).
  vm_compute. reflexivity.
Defined.

(** Two rows, the second prediction without its source documents. *)
Lemma evaluate_invalid_row_witness :
  exists e',
    evaluate qac qc columns_of Ok constant_metric
      (map example_row ["q1"; "q2"])
      [prediction_row "a1"; {[ "result" := VStr "a2" ]}]
      "query" "result" "source_documents" []
    = (Raise e', []).
Proof.
  apply (evaluate_invalid_row qac qc columns_of Ok constant_metric
           (map example_row ["q1"; "q2"])
           [prediction_row "a1"; {[ "result" := VStr "a2" ]}]
           "query" "result" "source_documents" [] 1
           (example_row "q2") {[ "result" := VStr "a2" ]}
           (ValueError (dquote +:+ "source_documents" +:+ dquote
              +:+ " is required in each prediction for the metric[faithfulness] you have chosen."))).
  - reflexivity.
  - reflexivity.
  - vm_compute. reflexivity.
Defined.

(** The query sits in the prediction, not in the example. *)
Lemma evaluate_question_only_in_prediction_witness :
  evaluate qac qc columns_of Ok constant_metric
    [∅] [<["query" := VStr "q1"]> (prediction_row "a1")]
    "query" "result" "source_documents" []
  = (Raise (KeyError "query"), []).
Proof.
  apply (evaluate_question_only_in_prediction qac qc columns_of Ok constant_metric
           ∅ (<["query" := VStr "q1"]> (prediction_row "a1")) [] []
           "query" "result" "source_documents" []).
  - reflexivity.
  - reflexivity.
  - vm_compute. reflexivity.
Defined.

End EvalChain.
